(** * NAT instance recovery Lambda: a shallow embedding and its properties

    Source: [src/terraform/nat-recovery-lambda.py].

    The Lambda is a handful of Python functions that read three environment
    variables, inspect a JSON event, call the EC2 and SNS clients and return
    a [{statusCode, body}] dictionary.  The embedding keeps that shape:

    - JSON data (the event, the boto3 responses) is the untyped [value];
      subscripting, [.get] and [.lower()] fail with the Python exception the
      interpreter raises;
    - the external clients are an oracle [respond] that sees the calls made
      so far and the call at hand, and answers with a value or an exception;
    - a function of the source is a computation [M A] that threads the list
      of external calls made so far (oldest first) and either returns or
      raises, so that [try ... except Exception] is [try_except];
    - [logger] calls are left out where they only format values already at
      hand; [str] of such a value is taken to return.  The two logged
      expressions whose failure the code can be seen to depend on are kept:
      [json.dumps(event)] at line 37, which runs out of recursion depth on
      an event nested too deeply, and [response['MessageId']] in
      [send_alert];
    - the clock is read afresh wherever the code calls [datetime.utcnow()]:
      the reading depends on the calls made so far. *)

From Stdlib Require Import String Ascii List ZArith Bool Lia DecimalString.
Import ListNotations.
Local Open Scope string_scope.
Set Warnings "-register-all".

(** ** Python values *)

(** What [json.loads] and the boto3 response parsers produce.  A [str] is
    kept as the bytes of its UTF-8 encoding; a [float] as the text of its
    [repr] (no arithmetic is ever done on one); a [dict] as an association
    list whose first binding of a key is the live one. *)
Inductive value : Type :=
| VNone
| VBool (b : bool)
| VInt (z : Z)
| VFloat (lit : string)
| VStr (s : string)
| VList (xs : list value)
| VDict (kvs : list (string * value)).

(** The exceptions the code can meet, all subclasses of [Exception]. *)
Inductive exn : Type :=
| ValueError (msg : string)
| KeyError (key : value)
| IndexError (msg : string)
| AttributeError (tyname attr : string)
| TypeError (msg : string)
| RecursionError (msg : string)
| UnboundLocalError (name : string)
| ServiceError (msg : string).   (* raised by a boto3 client call *)

Inductive outcome (A : Type) : Type :=
| Ok (a : A)
| Raise (e : exn).
Arguments Ok {A} a.
Arguments Raise {A} e.

Definition type_name (v : value) : string :=
  match v with
  | VNone => "NoneType"
  | VBool _ => "bool"
  | VInt _ => "int"
  | VFloat _ => "float"
  | VStr _ => "str"
  | VList _ => "list"
  | VDict _ => "dict"
  end.

(** [bool(v)] *)
Definition truthy (v : value) : bool :=
  match v with
  | VNone => false
  | VBool b => b
  | VInt z => negb (z =? 0)%Z
  | VFloat lit => negb ((lit =? "0.0") || (lit =? "-0.0"))
  | VStr s => negb (s =? "")
  | VList xs => match xs with [] => false | _ => true end
  | VDict kvs => match kvs with [] => false | _ => true end
  end.

(** [v == s] for a [str] [s]: only an equal [str] compares equal. *)
Definition eq_str (v : value) (s : string) : bool :=
  match v with
  | VStr t => t =? s
  | _ => false
  end.

(** [v in [s1, s2, ...]] for a list of [str] literals. *)
Definition in_strs (v : value) (l : list string) : bool :=
  existsb (eq_str v) l.

Fixpoint assoc (k : string) (kvs : list (string * value)) : option value :=
  match kvs with
  | [] => None
  | (k', v) :: rest => if k' =? k then Some v else assoc k rest
  end.

(** [d.get(k, default)]; only a [dict] has the method. *)
Definition dict_get (d : value) (k : string) (default : value) : outcome value :=
  match d with
  | VDict kvs =>
      match assoc k kvs with
      | Some v => Ok v
      | None => Ok default
      end
  | _ => Raise (AttributeError (type_name d) "get")
  end.

Definition not_subscriptable (v : value) : exn :=
  TypeError ("'" ++ type_name v ++ "' object is not subscriptable").

(** [v[k]] for a [str] key [k]. *)
Definition getitem (v : value) (k : string) : outcome value :=
  match v with
  | VDict kvs =>
      match assoc k kvs with
      | Some x => Ok x
      | None => Raise (KeyError (VStr k))
      end
  | VList _ => Raise (TypeError "list indices must be integers or slices, not str")
  | VStr _ => Raise (TypeError "string indices must be integers, not 'str'")
  | _ => Raise (not_subscriptable v)
  end.

(** Length in bytes of the UTF-8 sequence that starts with byte [c]. *)
Definition utf8_width (c : ascii) : nat :=
  let n := nat_of_ascii c in
  if Nat.ltb n 192 then 1 else if Nat.ltb n 224 then 2
  else if Nat.ltb n 240 then 3 else 4.

(** [v[0]] *)
Definition getitem0 (v : value) : outcome value :=
  match v with
  | VList xs =>
      match xs with
      | x :: _ => Ok x
      | [] => Raise (IndexError "list index out of range")
      end
  | VStr s =>
      match s with
      | String c _ => Ok (VStr (substring 0 (utf8_width c) s))
      | EmptyString => Raise (IndexError "string index out of range")
      end
  | VDict _ => Raise (KeyError (VInt 0))   (* JSON keys are all [str] *)
  | _ => Raise (not_subscriptable v)
  end.

(** How deep lists and dicts are nested in [v]: 0 for a scalar. *)
Fixpoint depth (v : value) : nat :=
  match v with
  | VList xs => S (list_max (map depth xs))
  | VDict kvs => S (list_max (map (fun kv => depth (snd kv)) kvs))
  | _ => 0
  end.

(** ** Strings *)

Definition lower_ascii (c : ascii) : ascii :=
  let n := nat_of_ascii c in
  if Nat.leb 65 n && Nat.leb n 90 then ascii_of_nat (n + 32) else c.

(** [s.lower()] on the ASCII letters.  The letters of the two needles the
    code looks for are ASCII, and no other character lowers to one of them,
    so the membership tests below agree with Python's on every [str]. *)
Fixpoint lower (s : string) : string :=
  match s with
  | EmptyString => EmptyString
  | String c rest => String (lower_ascii c) (lower rest)
  end.

(** [needle in hay] *)
Fixpoint contains (needle hay : string) : bool :=
  prefix needle hay ||
  match hay with
  | EmptyString => false
  | String _ rest => contains needle rest
  end.

(** [v.lower()]; only a [str] has the method. *)
Definition str_lower (v : value) : outcome string :=
  match v with
  | VStr s => Ok (lower s)
  | _ => Raise (AttributeError (type_name v) "lower")
  end.

Definition str_of_Z (z : Z) : string := NilZero.string_of_int (Z.to_int z).

Definition join (sep : string) (l : list string) : string :=
  String.concat sep l.

Section Runtime.

(** [repr] of a [str] (quote choice and escapes) belongs to the
    interpreter; it is taken as given. *)
Variable repr_str : string -> string.

(** [repr(v)] *)
Fixpoint repr (v : value) : string :=
  match v with
  | VNone => "None"
  | VBool true => "True"
  | VBool false => "False"
  | VInt z => str_of_Z z
  | VFloat lit => lit
  | VStr s => repr_str s
  | VList xs => "[" ++ join ", " (map repr xs) ++ "]"
  | VDict kvs =>
      "{" ++ join ", " (map (fun kv => repr_str (fst kv) ++ ": " ++ repr (snd kv)) kvs) ++ "}"
  end.

(** [str(v)], which is what an f-string field [{v}] inserts. *)
Definition str (v : value) : string :=
  match v with
  | VStr s => s
  | _ => repr v
  end.

(** [str(e)] *)
Definition str_exn (e : exn) : string :=
  match e with
  | ValueError msg => msg
  | KeyError key => repr key
  | IndexError msg => msg
  | AttributeError tyname attr =>
      "'" ++ tyname ++ "' object has no attribute '" ++ attr ++ "'"
  | TypeError msg => msg
  | RecursionError msg => msg
  | UnboundLocalError name =>
      "cannot access local variable '" ++ name
        ++ "' where it is not associated with a value"
  | ServiceError msg => msg
  end.

End Runtime.

(** ** External calls and the computation type *)

(** One call on a boto3 client, with its keyword arguments.  [TopicArn] is
    whatever [os.environ.get] gave, [None] included. *)
Inductive call : Type :=
| DescribeInstances (InstanceIds : list string)
| StartInstances (InstanceIds : list string)
| DescribeInstanceStatus (InstanceIds : list string)
| RebootInstances (InstanceIds : list string)
| Publish (TopicArn : option string) (Subject Message : string).

Definition trace := list call.

(** What lies outside the function: the process environment, the services
    behind the two clients, and the clock.  A service answers, and the
    clock reads, knowing the calls made so far; every reading of the clock
    in the code is followed by a publish call, so two readings never see
    the same calls and any sequence of readings is some [utcnow_isoformat]. *)
Record World : Type := {
  environ : string -> option string;
  respond : trace -> call -> outcome value;
  utcnow_isoformat : trace -> string
}.

(** The [{'statusCode': ..., 'body': ...}] dictionary a handler returns. *)
Record result : Type := { statusCode : Z; body : string }.

Definition M (A : Type) : Type := trace -> outcome A * trace.

Definition ret {A} (a : A) : M A := fun tr => (Ok a, tr).

Definition raise {A} (e : exn) : M A := fun tr => (Raise e, tr).

Definition bind {A B} (m : M A) (k : A -> M B) : M B :=
  fun tr =>
    match m tr with
    | (Ok a, tr') => k a tr'
    | (Raise e, tr') => (Raise e, tr')
    end.

(** [try: m  except Exception as e: h e] *)
Definition try_except {A} (m : M A) (h : exn -> M A) : M A :=
  fun tr =>
    match m tr with
    | (Ok a, tr') => (Ok a, tr')
    | (Raise e, tr') => h e tr'
    end.

(** A pure step that may raise. *)
Definition lift {A} (o : outcome A) : M A := fun tr => (o, tr).

Declare Scope py_scope.
Delimit Scope py_scope with py.
Notation "x <- m ;; k" := (bind m (fun x => k))
  (at level 61, m at next level, right associativity) : py_scope.
Notation "m ;; k" := (bind m (fun _ => k))
  (at level 61, right associativity) : py_scope.
Local Open Scope py_scope.

(** [bool(x)] for what [os.environ.get] returns. *)
Definition truthy_env (o : option string) : bool :=
  match o with
  | Some s => negb (s =? "")
  | None => false
  end.

(** [all(l)] *)
Definition all (l : list bool) : bool := forallb (fun b => b) l.

(** ** The functions of the Lambda *)

Module NatRecoveryLambda.

Section Lambda.

(** [repr] and [json.dumps] of a [str], as the interpreter and its library
    compute them; the number of nested lists and dicts [json.dumps] can
    still enter at line 37 before the interpreter's recursion limit stops
    it; and the world the invocation runs in. *)
Variable repr_str : string -> string.
Variable json_dumps : string -> string.
Variable recursion_limit : nat.
Variable w : World.

Local Abbreviation str := (str repr_str).
Local Abbreviation str_exn := (str_exn repr_str).

(** [json.dumps(event)] of line 37, for the log: it enters one level of
    recursion for each nested list or dict and raises when none is left.
    The text it returns is only logged. *)
Definition dump_event (event : value) : outcome unit :=
  if Nat.leb (depth event) recursion_limit then Ok tt
  else Raise (RecursionError
                "maximum recursion depth exceeded while encoding a JSON object").

(** [datetime.utcnow().isoformat()] *)
Definition utcnow : M string :=
  fun tr => (Ok (utcnow_isoformat w tr), tr).

(** A call on the [ec2] or [sns] client: it is recorded, and the service
    answers knowing what was called before. *)
Definition client_call (c : call) : M value :=
  fun tr => (respond w tr c, (tr ++ [c])%list).

(** [send_alert(sns_topic_arn, subject, message)] *)
Definition send_alert (sns_topic_arn : option string) (subject message : string)
  : M unit :=
  try_except
    (response <- client_call (Publish sns_topic_arn subject message);;
     _ <- lift (getitem response "MessageId");;
     ret tt)
    (fun _ => ret tt).

Definition restarted_message (instance_id now : string) : string :=
  "
NAT Instance Recovery Action

Instance ID: " ++ instance_id ++ "
Action: Started stopped instance
Time: " ++ now ++ "
Status: Success

The NAT instance was automatically restarted to maintain network connectivity.
Please monitor the instance and verify connectivity from private subnets.
".

(** [handle_stopped_instance(instance_id, sns_topic_arn)] *)
Definition handle_stopped_instance (instance_id sns_topic_arn : string)
  : M result :=
  try_except
    (response <- client_call (DescribeInstances [instance_id]);;
     reservations <- lift (getitem response "Reservations");;
     reservation <- lift (getitem0 reservations);;
     instances <- lift (getitem reservation "Instances");;
     instance <- lift (getitem0 instances);;
     state <- lift (getitem instance "State");;
     current_state <- lift (getitem state "Name");;
     if eq_str current_state "stopped" then
       _ <- client_call (StartInstances [instance_id]);;
       now <- utcnow;;
       send_alert (Some sns_topic_arn) "NAT Instance Automatically Restarted"
                  (restarted_message instance_id now);;
       ret {| statusCode := 200;
              body := json_dumps ("Successfully started instance " ++ instance_id) |}
     else
       ret {| statusCode := 400;
              body := json_dumps ("Instance in " ++ str current_state ++ " state") |})
    (fun e =>
       send_alert (Some sns_topic_arn) "NAT Recovery Failed"
                  ("Failed to restart NAT instance " ++ instance_id ++ ": " ++ str_exn e);;
       raise e).

Definition terminated_message (instance_id now : string) : string :=
  "
CRITICAL: NAT Instance Terminated

Instance ID: " ++ instance_id ++ "
Action: Instance terminated
Time: " ++ now ++ "
Impact: Private subnet connectivity lost

IMMEDIATE ACTION REQUIRED:
1. Launch new NAT instance or enable Auto Scaling Group
2. Update route tables to point to new instance
3. Verify connectivity from private subnets

This is a critical infrastructure failure requiring immediate attention.
".

(** [handle_terminated_instance(instance_id, sns_topic_arn)] *)
Definition handle_terminated_instance (instance_id sns_topic_arn : string)
  : M result :=
  now <- utcnow;;
  send_alert (Some sns_topic_arn) "CRITICAL: NAT Instance Terminated"
             (terminated_message instance_id now);;
  ret {| statusCode := 200;
         body := json_dumps "Critical alert sent for terminated instance" |}.

(** [handle_instance_state_change(event, instance_id, sns_topic_arn)] *)
Definition handle_instance_state_change (event : value)
           (instance_id sns_topic_arn : string) : M result :=
  detail <- lift (dict_get event "detail" (VDict []));;
  event_instance_id <- lift (dict_get detail "instance-id" VNone);;
  state <- lift (dict_get detail "state" VNone);;
  if negb (eq_str event_instance_id instance_id) then
    ret {| statusCode := 200; body := "Not our instance" |}
  else if in_strs state ["stopped"; "stopping"] then
    handle_stopped_instance instance_id sns_topic_arn
  else if in_strs state ["terminated"; "terminating"] then
    handle_terminated_instance instance_id sns_topic_arn
  else
    ret {| statusCode := 200; body := "No action needed" |}.

Definition rebooted_message (instance_id : string) (alarm_name reason : value)
           (now : string) : string :=
  "
NAT Instance Recovery Action

Instance ID: " ++ instance_id ++ "
Action: Rebooted due to health check failure
Alarm: " ++ str alarm_name ++ "
Reason: " ++ str reason ++ "
Time: " ++ now ++ "

The NAT instance was automatically rebooted to recover from health check failures.
Please monitor the instance status and verify connectivity.
".

(** [handle_health_check_failure(instance_id, alarm_name, reason, sns_topic_arn)] *)
Definition handle_health_check_failure (instance_id : string)
           (alarm_name reason : value) (sns_topic_arn : string) : M result :=
  try_except
    (response <- client_call (DescribeInstanceStatus [instance_id]);;
     statuses <- lift (getitem response "InstanceStatuses");;
     if negb (truthy statuses) then
       ret {| statusCode := 404; body := "Instance status not found" |}
     else
       statuses <- lift (getitem response "InstanceStatuses");;
       status <- lift (getitem0 statuses);;
       instance_check <- lift (getitem status "InstanceStatus");;
       instance_status <- lift (getitem instance_check "Status");;
       system_check <- lift (getitem status "SystemStatus");;
       system_status <- lift (getitem system_check "Status");;
       if negb (eq_str instance_status "ok") || negb (eq_str system_status "ok") then
         _ <- client_call (RebootInstances [instance_id]);;
         now <- utcnow;;
         send_alert (Some sns_topic_arn) "NAT Instance Automatically Rebooted"
                    (rebooted_message instance_id alarm_name reason now);;
         ret {| statusCode := 200;
                body := json_dumps ("Successfully rebooted instance " ++ instance_id) |}
       else
         ret {| statusCode := 200;
                body := json_dumps "Status checks OK, no action needed" |})
    (fun e =>
       send_alert (Some sns_topic_arn) "NAT Recovery Failed"
                  ("Failed to handle health check failure for " ++ instance_id
                     ++ ": " ++ str_exn e);;
       raise e).

Definition alarm_message (alarm_name state_value state_reason : value)
           (instance_id now : string) : string :=
  "
NAT Instance Alert

Alarm: " ++ str alarm_name ++ "
State: " ++ str state_value ++ "
Reason: " ++ str state_reason ++ "
Instance: " ++ instance_id ++ "
Time: " ++ now ++ "

Please investigate the issue and take appropriate action if needed.
".

(** ['health' in alarm_name.lower() or 'status' in alarm_name.lower()] *)
Definition is_health_alarm (alarm_name : value) : M bool :=
  lowered <- lift (str_lower alarm_name);;
  if contains "health" lowered then ret true
  else
    lowered <- lift (str_lower alarm_name);;
    ret (contains "status" lowered).

(** [handle_cloudwatch_alarm(event, instance_id, sns_topic_arn)] *)
Definition handle_cloudwatch_alarm (event : value)
           (instance_id sns_topic_arn : string) : M result :=
  detail <- lift (dict_get event "detail" (VDict []));;
  alarm_name <- lift (dict_get detail "alarmName" (VStr "Unknown"));;
  new_state <- lift (dict_get detail "newState" (VDict []));;
  state_value <- lift (dict_get new_state "value" (VStr "Unknown"));;
  state_reason <- lift (dict_get new_state "reason" (VStr "No reason provided"));;
  let processed :=
    ret {| statusCode := 200;
           body := json_dumps ("Processed alarm: " ++ str alarm_name) |} in
  if eq_str state_value "ALARM" then
    critical <- is_health_alarm alarm_name;;
    if critical then
      handle_health_check_failure instance_id alarm_name state_reason sns_topic_arn
    else
      now <- utcnow;;
      send_alert (Some sns_topic_arn) ("NAT Instance Alert: " ++ str alarm_name)
                 (alarm_message alarm_name state_value state_reason instance_id now);;
      processed
  else
    processed.

(** The [except] clause of [handler] (lines 63-69).  [sns_topic_arn] is
    what that local variable holds when the exception arrives: nothing
    while line 42 has not run, and then line 65 raises in its turn. *)
Definition handler_except (sns_topic_arn : option (option string)) (e : exn)
  : M result :=
  match sns_topic_arn with
  | None => raise (UnboundLocalError "sns_topic_arn")
  | Some sns_topic_arn =>
      send_alert sns_topic_arn "NAT Recovery Error"
                 ("Error in recovery function: " ++ str_exn e);;
      ret {| statusCode := 500; body := json_dumps ("Error: " ++ str_exn e) |}
  end.

(** [handler(event, context)].  Line 37 is the only statement of the [try]
    block that can raise before the three variables are bound (lines 40-42
    cannot raise).  Past the [all(...)] test they are non-empty strings,
    which is what the handlers it calls take; the last branch of the inner
    [match] is never reached. *)
Definition handler (event : value) : M result :=
  match dump_event event with
  | Raise e => handler_except None e
  | Ok _ =>
      let instance_id := environ w "INSTANCE_ID" in
      let route_table_id := environ w "ROUTE_TABLE_ID" in
      let sns_topic_arn := environ w "SNS_TOPIC_ARN" in
      try_except
        (if negb (all [truthy_env instance_id; truthy_env route_table_id;
                       truthy_env sns_topic_arn]) then
           raise (ValueError "Missing required environment variables")
         else
           event_source <- lift (dict_get event "source" VNone);;
           detail_type <- lift (dict_get event "detail-type" VNone);;
           _ <- lift (dict_get event "detail" (VDict []));;
           match instance_id, sns_topic_arn with
           | Some instance_id, Some sns_topic_arn =>
               if eq_str event_source "aws.ec2"
                  && eq_str detail_type "EC2 Instance State-change Notification" then
                 handle_instance_state_change event instance_id sns_topic_arn
               else if eq_str event_source "aws.cloudwatch" then
                 handle_cloudwatch_alarm event instance_id sns_topic_arn
               else
                 ret {| statusCode := 200; body := json_dumps "Event type not handled" |}
           | _, _ => raise (ValueError "Missing required environment variables")
           end)
        (handler_except (Some sns_topic_arn))
  end.

End Lambda.

End NatRecoveryLambda.
Import NatRecoveryLambda.

(** ** Reading an invocation *)

Definition is_probe (c : call) : bool :=
  match c with
  | DescribeInstances _ | DescribeInstanceStatus _ => true
  | _ => false
  end.

Definition is_start (c : call) : bool :=
  match c with StartInstances _ => true | _ => false end.

Definition is_reboot (c : call) : bool :=
  match c with RebootInstances _ => true | _ => false end.

Definition is_publish (c : call) : bool :=
  match c with Publish _ _ _ => true | _ => false end.

(** How many of the calls made satisfy [p]. *)
Definition count (p : call -> bool) (tr : trace) : nat :=
  length (filter p tr).

(** The status code an invocation returned, if it returned. *)
Definition status {A} (code : A -> Z) (r : outcome A * trace) : option Z :=
  match fst r with
  | Ok a => Some (code a)
  | Raise _ => None
  end.

(** The test of line 44 on the three environment variables. *)
Definition config_complete (w : World) : bool :=
  all [truthy_env (environ w "INSTANCE_ID");
       truthy_env (environ w "ROUTE_TABLE_ID");
       truthy_env (environ w "SNS_TOPIC_ARN")].

(** All three environment variables are set and non-empty; [instance_id]
    and [sns_topic_arn] are the values of two of them. *)
Definition configured (w : World) (instance_id sns_topic_arn : string) : Prop :=
  environ w "INSTANCE_ID" = Some instance_id /\
  environ w "SNS_TOPIC_ARN" = Some sns_topic_arn /\
  config_complete w = true.

(** One of the three environment variables is unset or empty. *)
Definition misconfigured (w : World) : Prop :=
  truthy_env (environ w "INSTANCE_ID") = false \/
  truthy_env (environ w "ROUTE_TABLE_ID") = false \/
  truthy_env (environ w "SNS_TOPIC_ARN") = false.

(** The envelope of an EC2 state-change notification whose [detail] (absent
    or a [dict]) gives [instance_id] and [state], [None] where a key is
    missing. *)
Definition state_change_event (event instance_id state : value) : Prop :=
  dict_get event "source" VNone = Ok (VStr "aws.ec2") /\
  dict_get event "detail-type" VNone
    = Ok (VStr "EC2 Instance State-change Notification") /\
  exists detail,
    dict_get event "detail" (VDict []) = Ok detail /\
    dict_get detail "instance-id" VNone = Ok instance_id /\
    dict_get detail "state" VNone = Ok state.

(** The envelope of a CloudWatch event, with what the alarm handler reads
    from it: [detail] and [newState] absent or a [dict], and a default where
    a key is missing. *)
Definition alarm_event (event alarm_name state_value state_reason : value) : Prop :=
  dict_get event "source" VNone = Ok (VStr "aws.cloudwatch") /\
  exists detail new_state,
    dict_get event "detail" (VDict []) = Ok detail /\
    dict_get detail "alarmName" (VStr "Unknown") = Ok alarm_name /\
    dict_get detail "newState" (VDict []) = Ok new_state /\
    dict_get new_state "value" (VStr "Unknown") = Ok state_value /\
    dict_get new_state "reason" (VStr "No reason provided") = Ok state_reason.

(** [kvs.get(k, default)] on the bindings of a [dict]. *)
Definition field (k : string) (default : value) (kvs : list (string * value)) : value :=
  match assoc k kvs with
  | Some v => v
  | None => default
  end.

(** A CloudWatch event whose [detail] is absent or the [dict] [detail], and
    whose [newState] is absent or the [dict] [new_state]; an absent one has
    no bindings. *)
Definition alarm_detail (event : value) (detail new_state : list (string * value))
  : Prop :=
  dict_get event "source" VNone = Ok (VStr "aws.cloudwatch") /\
  dict_get event "detail" (VDict []) = Ok (VDict detail) /\
  dict_get (VDict detail) "newState" (VDict []) = Ok (VDict new_state).

(** [o >>= k] on outcomes. *)
Definition and_then {A B} (o : outcome A) (k : A -> outcome B) : outcome B :=
  match o with
  | Ok a => k a
  | Raise e => Raise e
  end.

(** [response['Reservations'][0]['Instances'][0]['State']['Name']], the
    lookup of lines 103-104. *)
Definition current_state_of (response : value) : outcome value :=
  and_then (getitem response "Reservations") (fun reservations =>
  and_then (getitem0 reservations) (fun reservation =>
  and_then (getitem reservation "Instances") (fun instances =>
  and_then (getitem0 instances) (fun instance =>
  and_then (getitem instance "State") (fun state =>
  getitem state "Name"))))).

(** The two [Status] fields of [response['InstanceStatuses'][0]], the
    lookups of lines 220-222. *)
Definition health_of (response : value) : outcome (value * value) :=
  and_then (getitem response "InstanceStatuses") (fun statuses =>
  and_then (getitem0 statuses) (fun status =>
  and_then (getitem status "InstanceStatus") (fun instance_check =>
  and_then (getitem instance_check "Status") (fun instance_status =>
  and_then (getitem status "SystemStatus") (fun system_check =>
  and_then (getitem system_check "Status") (fun system_status =>
  Ok (instance_status, system_status))))))).

(** [text] has [part] somewhere inside it. *)
Definition mentions (text part : string) : Prop :=
  exists before after, text = before ++ part ++ after.

(** Two worlds with the same environment, clock and EC2 service, which may
    differ in how the SNS service answers a publish call. *)
Definition differ_only_in_delivery (w1 w2 : World) : Prop :=
  (forall k, environ w1 k = environ w2 k) /\
  (forall tr, utcnow_isoformat w1 tr = utcnow_isoformat w2 tr) /\
  (forall tr c, is_publish c = false -> respond w1 tr c = respond w2 tr c).

(** ** The shapes an invocation can take *)

(** A corrective call with the probe that precedes it in the source:
    [start_instances] after [describe_instances] (lines 102-108),
    [reboot_instances] after [describe_instance_status] (lines 215-230). *)
Definition corrective (id : string) (probe action : call) : Prop :=
  (probe = DescribeInstances [id] /\ action = StartInstances [id]) \/
  (probe = DescribeInstanceStatus [id] /\ action = RebootInstances [id]).

Definition probe_of (id : string) (probe : call) : Prop :=
  probe = DescribeInstances [id] \/ probe = DescribeInstanceStatus [id].

(** How a handler called by [handler] can end, with the calls it made: one
    constructor for each way out of lines 71-262. *)
Inductive path (id topic : string) : outcome result -> trace -> Prop :=
| path_quiet r :
    statusCode r = 200%Z -> path id topic (Ok r) []
| path_unreadable e :
    path id topic (Raise e) []
| path_notice r subject message :
    statusCode r = 200%Z -> subject <> "NAT Recovery Error" ->
    path id topic (Ok r) [Publish (Some topic) subject message]
| path_probe_failed probe e message :
    probe_of id probe ->
    path id topic (Raise e)
         [probe; Publish (Some topic) "NAT Recovery Failed" message]
| path_conflict r :
    statusCode r = 400%Z -> path id topic (Ok r) [DescribeInstances [id]]
| path_not_found r :
    statusCode r = 404%Z -> path id topic (Ok r) [DescribeInstanceStatus [id]]
| path_healthy r :
    statusCode r = 200%Z -> path id topic (Ok r) [DescribeInstanceStatus [id]]
| path_action_failed probe action e message :
    corrective id probe action ->
    path id topic (Raise e)
         [probe; action; Publish (Some topic) "NAT Recovery Failed" message]
| path_acted r probe action subject message :
    corrective id probe action ->
    statusCode r = 200%Z -> subject <> "NAT Recovery Error" ->
    path id topic (Ok r) [probe; action; Publish (Some topic) subject message].

(** How [handler] can end, with the calls of the invocation: the failed
    configuration test of lines 44-45, a handler that returned, or a
    handler that raised into the [except] clause of lines 63-69. *)
Inductive invocation (w : World) : result -> trace -> Prop :=
| invocation_misconfigured r message :
    config_complete w = false -> statusCode r = 500%Z ->
    invocation w r [Publish (environ w "SNS_TOPIC_ARN") "NAT Recovery Error" message]
| invocation_returned id topic r calls :
    configured w id topic -> path id topic (Ok r) calls ->
    invocation w r calls
| invocation_failed id topic e r calls message :
    configured w id topic -> path id topic (Raise e) calls ->
    statusCode r = 500%Z ->
    invocation w r
               (calls ++ [Publish (Some topic) "NAT Recovery Error" message])%list.

(** The services of [w1], after the calls [tr1], answer EC2 calls as those
    of [w2] do after the calls [tr2], whatever is called next. *)
Definition same_answers (w1 : World) (tr1 : trace) (w2 : World) (tr2 : trace)
  : Prop :=
  forall h c, is_publish c = false ->
              respond w1 (tr1 ++ h)%list c = respond w2 (tr2 ++ h)%list c.

(** The clock of [w1], after the calls [tr1], reads as that of [w2] does
    after the calls [tr2], whatever is called next. *)
Definition same_clock (w1 : World) (tr1 : trace) (w2 : World) (tr2 : trace)
  : Prop :=
  forall h, utcnow_isoformat w1 (tr1 ++ h)%list = utcnow_isoformat w2 (tr2 ++ h)%list.

(** A call without the text of its message, which carries the time. *)
Definition headline (c : call) : call :=
  match c with
  | Publish topic subject _ => Publish topic subject ""
  | _ => c
  end.

(** The same calls, up to the text of the messages and, where the clocks
    agree, to the letter. *)
Definition alike (w1 : World) (tr1 : trace) (w2 : World) (tr2 : trace)
           (calls1 calls2 : trace) : Prop :=
  map headline calls1 = map headline calls2 /\
  (same_clock w1 tr1 w2 tr2 -> calls1 = calls2).

(** [json.dumps(event)] at line 37 returns. *)
Definition loggable (recursion_limit : nat) (event : value) : Prop :=
  depth event <= recursion_limit.

(** A string inside [n] lists, one in the other. *)
Fixpoint nested (n : nat) : value :=
  match n with
  | 0 => VStr "x"
  | S n => VList [nested n]
  end.

(** The two configurations give [handler] the same instance and topic, and
    both pass or both fail the test on the route table variable. *)
Definition same_config (w1 w2 : World) : Prop :=
  environ w1 "INSTANCE_ID" = environ w2 "INSTANCE_ID" /\
  environ w1 "SNS_TOPIC_ARN" = environ w2 "SNS_TOPIC_ARN" /\
  truthy_env (environ w1 "ROUTE_TABLE_ID") = truthy_env (environ w2 "ROUTE_TABLE_ID").

(** The call is on the configured instance, or publishes to the configured
    topic. *)
Definition aimed_at (w : World) (c : call) : Prop :=
  match c with
  | Publish topic _ _ => topic = environ w "SNS_TOPIC_ARN"
  | DescribeInstances ids | StartInstances ids
  | DescribeInstanceStatus ids | RebootInstances ids =>
      exists id, environ w "INSTANCE_ID" = Some id /\ ids = [id]
  end.

(** The EC2 service answers a call the same way whatever was called
    before. *)
Definition history_free (w : World) : Prop :=
  forall h1 h2 c, is_publish c = false -> respond w h1 c = respond w h2 c.

(** ** A test double *)

Module Double.

(** Environment of the source's own test block (lines 291-293). *)
Definition test_environ (k : string) : option string :=
  if k =? "INSTANCE_ID" then Some "i-1234567890abcdef0"
  else if k =? "ROUTE_TABLE_ID" then Some "rtb-1234567890abcdef0"
  else if k =? "SNS_TOPIC_ARN" then Some "arn:aws:sns:us-east-1:123456789012:test-topic"
  else None.

Definition instance_id := "i-1234567890abcdef0".
Definition topic := "arn:aws:sns:us-east-1:123456789012:test-topic".

(** A [describe_instances] response with one instance in state [name]. *)
Definition instances_in (name : string) : value :=
  VDict [("Reservations",
          VList [VDict [("Instances",
                         VList [VDict [("State", VDict [("Name", VStr name)])]])]])].

(** A [describe_instance_status] response with one status entry. *)
Definition statuses (instance_status system_status : string) : value :=
  VDict [("InstanceStatuses",
          VList [VDict [("InstanceStatus", VDict [("Status", VStr instance_status)]);
                        ("SystemStatus", VDict [("Status", VStr system_status)])]])].

Definition ack : value := VDict [("MessageId", VStr "m-1")].

(** A clock that ticks with every call: the reading after [n] calls is
    [n] letters long. *)
Fixpoint ticks (n : nat) : string :=
  match n with
  | 0 => "2024-01-01T00:00:00."
  | S n => ticks n ++ "0"
  end.

Definition clock (tr : trace) : string := ticks (length tr).

(** The interpreter's default recursion limit. *)
Definition recursion_limit : nat := 1000.

(** Services that answer every call with a fixed value or failure. *)
Definition service (describe start status reboot publish : outcome value)
           (tr : trace) (c : call) : outcome value :=
  match c with
  | DescribeInstances _ => describe
  | StartInstances _ => start
  | DescribeInstanceStatus _ => status
  | RebootInstances _ => reboot
  | Publish _ _ _ => publish
  end.

Definition world (describe start status reboot publish : outcome value) : World :=
  {| environ := test_environ;
     respond := service describe start status reboot publish;
     utcnow_isoformat := clock |}.

(** The same services with no environment at all. *)
Definition bare_world : World :=
  {| environ := fun _ => None;
     respond := service (Ok VNone) (Ok VNone) (Ok VNone) (Ok VNone) (Ok ack);
     utcnow_isoformat := clock |}.

(** The world of [world] with another route table configured. *)
Definition rerouted_world (describe start status reboot publish : outcome value)
  : World :=
  {| environ := fun k => if k =? "ROUTE_TABLE_ID" then Some "rtb-0fedcba9876543210"
                         else test_environ k;
     respond := service describe start status reboot publish;
     utcnow_isoformat := clock |}.

(** Stand-ins for [repr] and [json.dumps] of a [str], right on strings
    without quotes, backslashes or non-ASCII characters. *)
Definition repr_str (s : string) : string := "'" ++ s ++ "'".
Definition quote : string := String (ascii_of_nat 34) EmptyString.
Definition json_dumps (s : string) : string := quote ++ s ++ quote.

Definition envelope (source detail_type : string) (detail : value) : value :=
  VDict [("source", VStr source); ("detail-type", VStr detail_type); ("detail", detail)].

(** The source's own test event (lines 281-288), for any state. *)
Definition state_event (id state : string) : value :=
  envelope "aws.ec2" "EC2 Instance State-change Notification"
           (VDict [("instance-id", VStr id); ("state", VStr state)]).

Definition alarm (fields : list (string * value)) : value :=
  envelope "aws.cloudwatch" "CloudWatch Alarm State Change" (VDict fields).

End Double.

(** ** Properties *)

Section Properties.

Variable repr_str : string -> string.
Variable json_dumps : string -> string.
Variable recursion_limit : nat.

Local Abbreviation str := (str repr_str).
Local Abbreviation str_exn := (str_exn repr_str).
Local Abbreviation handler := (handler repr_str json_dumps recursion_limit).
Local Abbreviation loggable := (loggable recursion_limit).
Local Abbreviation handle_stopped_instance :=
  (handle_stopped_instance repr_str json_dumps).
Local Abbreviation handle_terminated_instance :=
  (handle_terminated_instance json_dumps).
Local Abbreviation handle_instance_state_change :=
  (handle_instance_state_change repr_str json_dumps).
Local Abbreviation handle_health_check_failure :=
  (handle_health_check_failure repr_str json_dumps).
Local Abbreviation handle_cloudwatch_alarm :=
  (handle_cloudwatch_alarm repr_str json_dumps).

(** What the [except] clause of [handler] (lines 63-69) makes of the
    outcome of its [try] block: a failure becomes one more alert and a
    status 500. *)
Definition top_level (sns_topic_arn : option string) (r : outcome result * trace)
  : outcome result * trace :=
  match r with
  | (Ok a, tr) => (Ok a, tr)
  | (Raise e, tr) =>
      (Ok {| statusCode := 500; body := json_dumps ("Error: " ++ str_exn e) |},
       (tr ++ [Publish sns_topic_arn "NAT Recovery Error"
                       ("Error in recovery function: " ++ str_exn e)])%list)
  end.

(** What the [except] clause of a recovery handler (lines 136-140 and
    258-262) makes of the outcome of its [try] block: a failure is reported
    in an alert whose text is [message] of [str(e)], and raised again. *)
Definition escalate (sns_topic_arn : string) (message : string -> string)
           (r : outcome result * trace)
  : outcome result * trace :=
  match r with
  | (Ok a, tr) => (Ok a, tr)
  | (Raise e, tr) =>
      (Raise e,
       (tr ++ [Publish (Some sns_topic_arn) "NAT Recovery Failed"
                       (message (str_exn e))])%list)
  end.

Ltac run := unfold try_except, bind, lift, ret, raise, client_call; simpl.

Lemma send_alert_run w topic subject message tr :
  send_alert w topic subject message tr
  = (Ok tt, (tr ++ [Publish topic subject message])%list).
Proof.
  unfold send_alert; run.
  destruct (respond w tr _) as [response|e]; simpl; [|reflexivity].
  destruct (getitem response "MessageId"); reflexivity.
Qed.

Lemma bind_lift {A B} (o : outcome A) (k : A -> M B) tr :
  (x <- lift o;; k x)%py tr
  = match o with Ok a => k a tr | Raise e => (Raise e, tr) end.
Proof. run. destruct o; reflexivity. Qed.

Lemma bind_run {A B} (m : M A) (k : A -> M B) tr :
  (x <- m;; k x)%py tr
  = match m tr with
    | (Ok a, tr') => k a tr'
    | (Raise e, tr') => (Raise e, tr')
    end.
Proof. reflexivity. Qed.

Lemma bind_utcnow {B} w (k : string -> M B) tr :
  (now <- utcnow w;; k now)%py tr = k (utcnow_isoformat w tr) tr.
Proof. reflexivity. Qed.

Lemma dump_event_ok event : loggable event -> dump_event recursion_limit event = Ok tt.
Proof.
  unfold NatRecoveryLambda.dump_event. intros H.
  apply Nat.leb_le in H. now rewrite H.
Qed.

Lemma dump_event_fails event :
  ~ loggable event ->
  dump_event recursion_limit event
  = Raise (RecursionError
             "maximum recursion depth exceeded while encoding a JSON object").
Proof.
  unfold NatRecoveryLambda.dump_event. intros H.
  destruct (Nat.leb (depth event) recursion_limit) eqn:E; [|reflexivity].
  apply Nat.leb_le in E. contradiction.
Qed.

(** An event that line 37 cannot log never reaches line 40: the [except]
    clause finds [sns_topic_arn] unbound and raises out of [handler],
    before any call. *)
Lemma handler_unloggable w event tr :
  ~ loggable event ->
  handler w event tr = (Raise (UnboundLocalError "sns_topic_arn"), tr).
Proof.
  intros H. unfold NatRecoveryLambda.handler. now rewrite (dump_event_fails _ H).
Qed.

Lemma bind_send_alert {B} w topic subject message (k : M B) tr :
  (send_alert w topic subject message;; k)%py tr
  = k (tr ++ [Publish topic subject message])%list.
Proof. unfold bind. rewrite send_alert_run. reflexivity. Qed.

Lemma eq_str_true v s : eq_str v s = true <-> v = VStr s.
Proof.
  destruct v; simpl; try (split; [discriminate|intros H; inversion H]).
  - rewrite String.eqb_eq. split; [intros ->; reflexivity | intros H; now inversion H].
Qed.

Lemma eq_str_false v s : eq_str v s = false <-> v <> VStr s.
Proof.
  rewrite <- eq_str_true. destruct (eq_str v s); split; congruence.
Qed.

Lemma str_of_str s : str (VStr s) = s.
Proof. reflexivity. Qed.

Lemma eq_str_refl s : eq_str (VStr s) s = true.
Proof. apply eq_str_true. reflexivity. Qed.

Lemma dict_get_ok_dict d k default v :
  dict_get d k default = Ok v -> exists kvs, d = VDict kvs.
Proof. destruct d; simpl; try discriminate. eauto. Qed.

Lemma dict_get_total kvs k default : exists v, dict_get (VDict kvs) k default = Ok v.
Proof. simpl. destruct (assoc k kvs); eauto. Qed.

(** With a complete configuration the entry point is the dispatch of lines
    52-61 under the top-level error boundary. *)
Lemma handler_state_change w id topic event tr :
  loggable event ->
  configured w id topic ->
  dict_get event "source" VNone = Ok (VStr "aws.ec2") ->
  dict_get event "detail-type" VNone
    = Ok (VStr "EC2 Instance State-change Notification") ->
  handler w event tr
  = top_level (Some topic) (handle_instance_state_change w event id topic tr).
Proof.
  intros Hlog (Hid & Htopic & Hall) Hsrc Hdt.
  unfold NatRecoveryLambda.handler, handler_except, top_level.
  rewrite (dump_event_ok _ Hlog).
  unfold config_complete in Hall. rewrite Hall, Hid, Htopic. cbn [negb].
  destruct (dict_get_ok_dict _ _ _ _ Hsrc) as [kvs ->].
  destruct (dict_get_total kvs "detail" (VDict [])) as [d Hd].
  unfold try_except. rewrite !bind_lift, Hsrc, bind_lift, Hdt, bind_lift, Hd.
  rewrite !eq_str_refl. cbn [andb].
  destruct (handle_instance_state_change w (VDict kvs) id topic tr) as [[r|e] tr'].
  - reflexivity.
  - rewrite bind_send_alert. reflexivity.
Qed.

Lemma handler_alarm w id topic event tr :
  loggable event ->
  configured w id topic ->
  dict_get event "source" VNone = Ok (VStr "aws.cloudwatch") ->
  handler w event tr
  = top_level (Some topic) (handle_cloudwatch_alarm w event id topic tr).
Proof.
  intros Hlog (Hid & Htopic & Hall) Hsrc.
  unfold NatRecoveryLambda.handler, handler_except, top_level.
  rewrite (dump_event_ok _ Hlog).
  unfold config_complete in Hall. rewrite Hall, Hid, Htopic. cbn [negb].
  destruct (dict_get_ok_dict _ _ _ _ Hsrc) as [kvs ->].
  destruct (dict_get_total kvs "detail" (VDict [])) as [d Hd].
  destruct (dict_get_total kvs "detail-type" VNone) as [dt Hdt].
  unfold try_except. rewrite !bind_lift, Hsrc, bind_lift, Hdt, bind_lift, Hd.
  change (eq_str (VStr "aws.cloudwatch") "aws.ec2") with false.
  rewrite eq_str_refl. cbn [andb].
  destruct (handle_cloudwatch_alarm w (VDict kvs) id topic tr) as [[r|e] tr'].
  - reflexivity.
  - rewrite bind_send_alert. reflexivity.
Qed.

(** Past the test of line 44 the two variables the handlers are given are
    set, so the last branch of the [match] in [handler] is dead. *)
Lemma config_complete_configured w :
  config_complete w = true -> exists id topic, configured w id topic.
Proof.
  intros Hall. pose proof Hall as Hall'. unfold config_complete, all, forallb in Hall'.
  destruct (environ w "INSTANCE_ID") as [id|] eqn:Hid; [|discriminate Hall'].
  destruct (environ w "SNS_TOPIC_ARN") as [topic|] eqn:Htopic.
  - exists id, topic. now repeat split.
  - cbn [truthy_env] in Hall'. rewrite !andb_false_r in Hall'. discriminate Hall'.
Qed.

(** Past line 37 the entry point is an error boundary: it returns. *)
Lemma handler_returns w event tr :
  loggable event ->
  exists r tr', handler w event tr = (Ok r, tr').
Proof.
  intros Hlog.
  unfold NatRecoveryLambda.handler, handler_except, try_except.
  rewrite (dump_event_ok _ Hlog).
  match goal with
  | |- context [match ?m tr with _ => _ end] => destruct (m tr) as [[r|e] tr']
  end.
  - eauto.
  - rewrite bind_send_alert. unfold ret. eauto.
Qed.

(** [handle_stopped_instance] as a decision tree over what the services
    answer. *)
Lemma handle_stopped_instance_run w id topic tr :
  handle_stopped_instance w id topic tr
  = escalate topic (fun s => "Failed to restart NAT instance " ++ id ++ ": " ++ s)
      (let tr1 := (tr ++ [DescribeInstances [id]])%list in
       match respond w tr (DescribeInstances [id]) with
       | Raise e => (Raise e, tr1)
       | Ok response =>
           match current_state_of response with
           | Raise e => (Raise e, tr1)
           | Ok current_state =>
               if eq_str current_state "stopped" then
                 let tr2 := (tr1 ++ [StartInstances [id]])%list in
                 match respond w tr1 (StartInstances [id]) with
                 | Raise e => (Raise e, tr2)
                 | Ok _ =>
                     (Ok {| statusCode := 200;
                            body := json_dumps ("Successfully started instance " ++ id) |},
                      (tr2 ++ [Publish (Some topic) "NAT Instance Automatically Restarted"
                                       (restarted_message
                                          id (utcnow_isoformat w tr2))])%list)
                 end
               else
                 (Ok {| statusCode := 400;
                        body := json_dumps ("Instance in " ++ str current_state ++ " state") |},
                  tr1)
           end
       end).
Proof.
  unfold NatRecoveryLambda.handle_stopped_instance, escalate, current_state_of, try_except.
  unfold bind at 1, client_call at 1. cbv zeta.
  destruct (respond w tr _) as [response|e]; [|now rewrite bind_send_alert].
  repeat (rewrite bind_lift;
          match goal with
          | |- context [and_then ?o _] =>
              destruct o as [?|?]; cbn [and_then]; [|now rewrite bind_send_alert]
          end).
  rewrite bind_lift.
  destruct (getitem _ "Name") as [current_state|e]; [|now rewrite bind_send_alert].
  destruct (eq_str current_state "stopped"); [|reflexivity].
  unfold bind at 1, client_call at 1.
  destruct (respond w _ (StartInstances _)); [|now rewrite bind_send_alert].
  rewrite bind_utcnow, bind_send_alert. reflexivity.
Qed.

(** [handle_health_check_failure] as a decision tree over what the
    services answer. *)
Lemma handle_health_check_failure_run w id alarm_name reason topic tr :
  handle_health_check_failure w id alarm_name reason topic tr
  = escalate topic
      (fun s => "Failed to handle health check failure for " ++ id ++ ": " ++ s)
      (let tr1 := (tr ++ [DescribeInstanceStatus [id]])%list in
       match respond w tr (DescribeInstanceStatus [id]) with
       | Raise e => (Raise e, tr1)
       | Ok response =>
           match getitem response "InstanceStatuses" with
           | Raise e => (Raise e, tr1)
           | Ok statuses =>
               if negb (truthy statuses) then
                 (Ok {| statusCode := 404; body := "Instance status not found" |}, tr1)
               else
                 match health_of response with
                 | Raise e => (Raise e, tr1)
                 | Ok (instance_status, system_status) =>
                     if negb (eq_str instance_status "ok")
                        || negb (eq_str system_status "ok") then
                       let tr2 := (tr1 ++ [RebootInstances [id]])%list in
                       match respond w tr1 (RebootInstances [id]) with
                       | Raise e => (Raise e, tr2)
                       | Ok _ =>
                           (Ok {| statusCode := 200;
                                  body := json_dumps
                                            ("Successfully rebooted instance " ++ id) |},
                            (tr2 ++ [Publish (Some topic)
                                             "NAT Instance Automatically Rebooted"
                                             (rebooted_message
                                                repr_str id alarm_name reason
                                                (utcnow_isoformat w tr2))])%list)
                       end
                     else
                       (Ok {| statusCode := 200;
                              body := json_dumps "Status checks OK, no action needed" |},
                        tr1)
                 end
           end
       end).
Proof.
  unfold NatRecoveryLambda.handle_health_check_failure, escalate, health_of, try_except.
  unfold bind at 1, client_call at 1. cbv zeta.
  destruct (respond w tr _) as [response|e]; [|now rewrite bind_send_alert].
  rewrite bind_lift.
  destruct (getitem response "InstanceStatuses") as [statuses|e];
    [|now rewrite bind_send_alert].
  destruct (negb (truthy statuses)); [reflexivity|].
  rewrite bind_lift. cbn [and_then].
  repeat (rewrite bind_lift;
          match goal with
          | |- context [and_then ?o _] =>
              destruct o as [?|?]; cbn [and_then]; [|now rewrite bind_send_alert]
          end).
  destruct (negb _ || negb _); [|reflexivity].
  unfold bind at 1, client_call at 1.
  destruct (respond w _ (RebootInstances _)); [|now rewrite bind_send_alert].
  rewrite bind_utcnow, bind_send_alert. reflexivity.
Qed.

(** [handle_instance_state_change] once the fields of the event are read. *)
Lemma handle_instance_state_change_run w id topic event event_instance_id state tr :
  state_change_event event event_instance_id state ->
  handle_instance_state_change w event id topic tr
  = if negb (eq_str event_instance_id id) then
      (Ok {| statusCode := 200; body := "Not our instance" |}, tr)
    else if in_strs state ["stopped"; "stopping"] then
      handle_stopped_instance w id topic tr
    else if in_strs state ["terminated"; "terminating"] then
      (Ok {| statusCode := 200;
             body := json_dumps "Critical alert sent for terminated instance" |},
       (tr ++ [Publish (Some topic) "CRITICAL: NAT Instance Terminated"
                       (terminated_message id (utcnow_isoformat w tr))])%list)
    else
      (Ok {| statusCode := 200; body := "No action needed" |}, tr).
Proof.
  intros (_ & _ & detail & Hd & Hi & Hs).
  unfold NatRecoveryLambda.handle_instance_state_change.
  rewrite bind_lift, Hd, bind_lift, Hi, bind_lift, Hs.
  destruct (negb _); [reflexivity|].
  destruct (in_strs state _); [reflexivity|].
  destruct (in_strs state _); [|reflexivity].
  unfold NatRecoveryLambda.handle_terminated_instance.
  rewrite bind_utcnow, bind_send_alert. reflexivity.
Qed.

(** [handle_cloudwatch_alarm] once the fields of the event are read. *)
Lemma handle_cloudwatch_alarm_run w id topic event alarm_name state_value state_reason tr :
  alarm_event event alarm_name state_value state_reason ->
  handle_cloudwatch_alarm w event id topic tr
  = let processed :=
      {| statusCode := 200;
         body := json_dumps ("Processed alarm: " ++ str alarm_name) |} in
    if eq_str state_value "ALARM" then
      match str_lower alarm_name with
      | Raise e => (Raise e, tr)
      | Ok lowered =>
          if contains "health" lowered || contains "status" lowered then
            handle_health_check_failure w id alarm_name state_reason topic tr
          else
            (Ok processed,
             (tr ++ [Publish (Some topic) ("NAT Instance Alert: " ++ str alarm_name)
                             (alarm_message repr_str alarm_name state_value
                                            state_reason id
                                            (utcnow_isoformat w tr))])%list)
      end
    else (Ok processed, tr).
Proof.
  intros (_ & detail & new_state & Hd & Hn & Hns & Hv & Hr).
  unfold NatRecoveryLambda.handle_cloudwatch_alarm.
  rewrite bind_lift, Hd, bind_lift, Hn, bind_lift, Hns, bind_lift, Hv, bind_lift, Hr.
  cbv zeta.
  destruct (eq_str state_value "ALARM"); [|reflexivity].
  unfold bind at 1, is_health_alarm. rewrite bind_lift.
  destruct (str_lower alarm_name) as [lowered|e]; [|reflexivity].
  destruct (contains "health" lowered); cbn [orb].
  - reflexivity.
  - rewrite bind_lift. unfold ret at 1.
    destruct (contains "status" lowered); [reflexivity|].
    rewrite bind_utcnow, bind_send_alert. reflexivity.
Qed.

Lemma mentions_here part after : mentions (part ++ after) part.
Proof. exists "", after. reflexivity. Qed.

Lemma mentions_app_r before text part :
  mentions text part -> mentions (before ++ text) part.
Proof.
  intros (b & a & ->). exists (before ++ b), a.
  induction before as [|c before IH]; simpl; [reflexivity|]. now rewrite IH.
Qed.

Ltac find_mention :=
  solve [apply mentions_here | apply mentions_app_r; find_mention].

(** A response whose two health fields can be read has a first status
    entry, so it passes the emptiness test of line 216. *)
Lemma health_of_ok_truthy response checks :
  health_of response = Ok checks ->
  exists statuses,
    getitem response "InstanceStatuses" = Ok statuses /\ truthy statuses = true.
Proof.
  unfold health_of. destruct (getitem response "InstanceStatuses") as [statuses|e];
    cbn [and_then]; [|discriminate].
  intros H. exists statuses. split; [reflexivity|].
  destruct statuses as [| | | |s|xs|kvs]; try discriminate H.
  - destruct s; [discriminate H|]. simpl in H. discriminate H.
  - destruct xs; [discriminate H|reflexivity].
Qed.

Lemma unhealthy_test instance_status system_status :
  instance_status <> VStr "ok" \/ system_status <> VStr "ok" ->
  negb (eq_str instance_status "ok") || negb (eq_str system_status "ok") = true.
Proof.
  intros [H | H]; apply eq_str_false in H; rewrite H; cbn [negb orb];
    [reflexivity | apply orb_true_r].
Qed.

(** *** Instance state-change events *)

(** In the statements about [handler] that follow, the event is one that
    line 37 can log ([loggable]); X1 says what becomes of the others. *)

(** C1: for a state-change event of the configured instance that reports
    "stopped" or "stopping" (and that line 37 can log), the live state is
    probed once.  If the live
    state is "stopped", one start call is issued, whatever its outcome, and
    once it is acknowledged the one notification is the success notice and
    the status is 200.  For any other live state the probe is the only call
    and the status is 400. *)
Theorem C1_stopped_event_starts_only_a_stopped_instance
        w id topic event state response current_state :
  loggable event ->
  configured w id topic ->
  state_change_event event (VStr id) state ->
  state = VStr "stopped" \/ state = VStr "stopping" ->
  respond w [] (DescribeInstances [id]) = Ok response ->
  current_state_of response = Ok current_state ->
  (current_state = VStr "stopped" ->
   count is_start (snd (handler w event [])) = 1 /\
   forall ack,
     respond w [DescribeInstances [id]] (StartInstances [id]) = Ok ack ->
     handler w event []
     = (Ok {| statusCode := 200;
              body := json_dumps ("Successfully started instance " ++ id) |},
        [DescribeInstances [id]; StartInstances [id];
         Publish (Some topic) "NAT Instance Automatically Restarted"
                 (restarted_message
                    id (utcnow_isoformat
                          w [DescribeInstances [id]; StartInstances [id]]))])) /\
  (current_state <> VStr "stopped" ->
   handler w event []
   = (Ok {| statusCode := 400;
            body := json_dumps ("Instance in " ++ str current_state ++ " state") |},
      [DescribeInstances [id]])).
Proof.
  intros Hlog Hcfg Hev Hstate Hprobe Hlive.
  assert (Hin : in_strs state ["stopped"; "stopping"] = true)
    by (destruct Hstate as [-> | ->]; reflexivity).
  pose proof Hev as (Hsrc & Hdt & _).
  rewrite (handler_state_change _ _ _ _ _ Hlog Hcfg Hsrc Hdt).
  rewrite (handle_instance_state_change_run _ _ _ _ _ _ _ Hev).
  rewrite eq_str_refl, Hin. cbn [negb].
  rewrite handle_stopped_instance_run, Hprobe, Hlive. cbv zeta. cbn [app].
  split.
  - intros ->. rewrite eq_str_refl. split.
    + destruct (respond w _ (StartInstances [id])); reflexivity.
    + intros ack ->. reflexivity.
  - intros Hne. apply eq_str_false in Hne. rewrite Hne. reflexivity.
Qed.

(** C6: for a state-change event of the configured instance that reports
    "terminated" or "terminating" (and that line 37 can log), the only
    external call is the one critical alert (no probe, no start, no reboot) and the status is 200. *)
Theorem C6_terminated_event_alerts_only w id topic event state :
  loggable event ->
  configured w id topic ->
  state_change_event event (VStr id) state ->
  state = VStr "terminated" \/ state = VStr "terminating" ->
  handler w event []
  = (Ok {| statusCode := 200;
           body := json_dumps "Critical alert sent for terminated instance" |},
     [Publish (Some topic) "CRITICAL: NAT Instance Terminated"
              (terminated_message id (utcnow_isoformat w []))]).
Proof.
  intros Hlog Hcfg Hev Hstate.
  pose proof Hev as (Hsrc & Hdt & _).
  rewrite (handler_state_change _ _ _ _ _ Hlog Hcfg Hsrc Hdt).
  rewrite (handle_instance_state_change_run _ _ _ _ _ _ _ Hev).
  rewrite eq_str_refl. destruct Hstate as [-> | ->]; reflexivity.
Qed.

(** C7: a state-change event that line 37 can log and whose instance id
    (None when the detail has none) is not the configured one returns
    status 200 and makes no
    external call at all. *)
Theorem C7_other_instance_is_ignored w id topic event event_instance_id state :
  loggable event ->
  configured w id topic ->
  state_change_event event event_instance_id state ->
  event_instance_id <> VStr id ->
  handler w event [] = (Ok {| statusCode := 200; body := "Not our instance" |}, []).
Proof.
  intros Hlog Hcfg Hev Hne.
  pose proof Hev as (Hsrc & Hdt & _).
  rewrite (handler_state_change _ _ _ _ _ Hlog Hcfg Hsrc Hdt).
  rewrite (handle_instance_state_change_run _ _ _ _ _ _ _ Hev).
  apply eq_str_false in Hne. rewrite Hne. reflexivity.
Qed.

(** C10: on the stopped path of an event that line 37 can log, a probe
    that answers with no reservation,
    or with a reservation that has no instance, makes the lookup raise
    IndexError; the stopped-path handler alerts and raises it again, and
    the invocation alerts a second time and returns status 500, not 404. *)
Theorem C10_unknown_instance_on_stopped_path_is_an_error
        w id topic event state response :
  loggable event ->
  configured w id topic ->
  state_change_event event (VStr id) state ->
  state = VStr "stopped" \/ state = VStr "stopping" ->
  respond w [] (DescribeInstances [id]) = Ok response ->
  getitem response "Reservations" = Ok (VList []) \/
  (exists reservation rest,
      getitem response "Reservations" = Ok (VList (reservation :: rest)) /\
      getitem reservation "Instances" = Ok (VList [])) ->
  let failed :=
    Publish (Some topic) "NAT Recovery Failed"
            ("Failed to restart NAT instance " ++ id ++ ": list index out of range") in
  handle_stopped_instance w id topic []
  = (Raise (IndexError "list index out of range"),
     [DescribeInstances [id]; failed]) /\
  handler w event []
  = (Ok {| statusCode := 500;
           body := json_dumps "Error: list index out of range" |},
     [DescribeInstances [id]; failed;
      Publish (Some topic) "NAT Recovery Error"
              "Error in recovery function: list index out of range"]).
Proof.
  intros Hlog Hcfg Hev Hstate Hprobe Hempty failed.
  assert (Hin : in_strs state ["stopped"; "stopping"] = true)
    by (destruct Hstate as [-> | ->]; reflexivity).
  assert (Hlive : current_state_of response
                  = Raise (IndexError "list index out of range")).
  { unfold current_state_of.
    destruct Hempty as [-> | (reservation & rest & -> & Hi)]; cbn [and_then getitem0].
    - reflexivity.
    - rewrite Hi. reflexivity. }
  assert (Hinner : handle_stopped_instance w id topic []
                   = (Raise (IndexError "list index out of range"),
                      [DescribeInstances [id]; failed])).
  { rewrite handle_stopped_instance_run, Hprobe, Hlive. reflexivity. }
  split; [exact Hinner|].
  pose proof Hev as (Hsrc & Hdt & _).
  rewrite (handler_state_change _ _ _ _ _ Hlog Hcfg Hsrc Hdt).
  rewrite (handle_instance_state_change_run _ _ _ _ _ _ _ Hev).
  rewrite eq_str_refl, Hin. cbn [negb]. rewrite Hinner. reflexivity.
Qed.

(** *** Configuration *)

(** X17: when one of the three environment variables is unset or empty,
    every event that line 37 can log gets status 500, and the only external
    call of the invocation is one alert on whatever topic is configured: no
    probe, no start, no reboot. *)
Theorem X17_missing_configuration_fails_fast w event :
  loggable event ->
  misconfigured w ->
  handler w event []
  = (Ok {| statusCode := 500;
           body := json_dumps "Error: Missing required environment variables" |},
     [Publish (environ w "SNS_TOPIC_ARN") "NAT Recovery Error"
              "Error in recovery function: Missing required environment variables"]).
Proof.
  intros Hlog Hmis.
  assert (Hall : all [truthy_env (environ w "INSTANCE_ID");
                      truthy_env (environ w "ROUTE_TABLE_ID");
                      truthy_env (environ w "SNS_TOPIC_ARN")] = false).
  { unfold all, forallb.
    destruct Hmis as [-> | [-> | ->]]; rewrite ?andb_false_r; reflexivity. }
  unfold NatRecoveryLambda.handler, handler_except.
  rewrite (dump_event_ok _ Hlog), Hall. cbn [negb].
  unfold try_except, raise. rewrite bind_send_alert. reflexivity.
Qed.

(** *** Alarm events *)

(** C2: on the health-check path, after a status probe that answered:
    with no status entry the result is 404 and the probe is the only call;
    with both checks "ok" the result is 200 and the probe is the only call;
    with either check not "ok" one reboot call is issued, whatever its
    outcome, and once it is acknowledged one recovery notice follows, which
    names the alarm and the reason, and the result is 200. *)
Theorem C2_health_check_path_decisions w id alarm_name reason topic response :
  respond w [] (DescribeInstanceStatus [id]) = Ok response ->
  (getitem response "InstanceStatuses" = Ok (VList []) ->
   handle_health_check_failure w id alarm_name reason topic []
   = (Ok {| statusCode := 404; body := "Instance status not found" |},
      [DescribeInstanceStatus [id]])) /\
  (forall instance_status system_status,
      health_of response = Ok (instance_status, system_status) ->
      (instance_status = VStr "ok" /\ system_status = VStr "ok" ->
       handle_health_check_failure w id alarm_name reason topic []
       = (Ok {| statusCode := 200;
                body := json_dumps "Status checks OK, no action needed" |},
          [DescribeInstanceStatus [id]])) /\
      (instance_status <> VStr "ok" \/ system_status <> VStr "ok" ->
       count is_reboot
             (snd (handle_health_check_failure w id alarm_name reason topic [])) = 1 /\
       forall ack,
         respond w [DescribeInstanceStatus [id]] (RebootInstances [id]) = Ok ack ->
         handle_health_check_failure w id alarm_name reason topic []
         = (Ok {| statusCode := 200;
                  body := json_dumps ("Successfully rebooted instance " ++ id) |},
            [DescribeInstanceStatus [id]; RebootInstances [id];
             Publish (Some topic) "NAT Instance Automatically Rebooted"
                     (rebooted_message
                        repr_str id alarm_name reason
                        (utcnow_isoformat
                           w [DescribeInstanceStatus [id]; RebootInstances [id]]))]) /\
         forall now,
           mentions (rebooted_message repr_str id alarm_name reason now)
                    (str alarm_name) /\
           mentions (rebooted_message repr_str id alarm_name reason now)
                    (str reason))).
Proof.
  intros Hprobe. rewrite handle_health_check_failure_run, Hprobe. cbv zeta. cbn [app].
  split.
  - intros ->. reflexivity.
  - intros instance_status system_status Hhealth.
    destruct (health_of_ok_truthy _ _ Hhealth) as (statuses & -> & ->).
    rewrite Hhealth. cbn [negb]. split.
    + intros [-> ->]. reflexivity.
    + intros Hbad. rewrite (unhealthy_test _ _ Hbad). split.
      * destruct (respond w _ (RebootInstances [id])); reflexivity.
      * intros ack ->. split; [reflexivity|].
        intros now. unfold rebooted_message. split; find_mention.
Qed.

(** C3: for a CloudWatch event that line 37 can log, under a complete
    configuration: a state value other than "ALARM" gives status 200 and no external call; with
    "ALARM" and a name that has "health" or "status" in its lower-cased
    form the alarm handler is the health-check path (and the invocation is
    that path under the top-level boundary); with "ALARM" and a name that
    has neither, the only call is one alert that reports name, state and
    reason, and the status is 200. *)
Theorem C3_alarm_event_classification
        w id topic event alarm_name state_value state_reason :
  loggable event ->
  configured w id topic ->
  alarm_event event alarm_name state_value state_reason ->
  (state_value <> VStr "ALARM" ->
   handler w event []
   = (Ok {| statusCode := 200;
            body := json_dumps ("Processed alarm: " ++ str alarm_name) |}, [])) /\
  (forall name,
      state_value = VStr "ALARM" ->
      alarm_name = VStr name ->
      (contains "health" (lower name) || contains "status" (lower name) = true ->
       handle_cloudwatch_alarm w event id topic []
       = handle_health_check_failure w id alarm_name state_reason topic [] /\
       handler w event []
       = top_level (Some topic)
                   (handle_health_check_failure w id alarm_name state_reason topic [])) /\
      (contains "health" (lower name) || contains "status" (lower name) = false ->
       let message :=
         alarm_message repr_str alarm_name state_value state_reason id
                       (utcnow_isoformat w []) in
       handler w event []
       = (Ok {| statusCode := 200;
                body := json_dumps ("Processed alarm: " ++ name) |},
          [Publish (Some topic) ("NAT Instance Alert: " ++ name) message]) /\
       mentions message name /\ mentions message "ALARM" /\
       mentions message (str state_reason))).
Proof.
  intros Hlog Hcfg Hev. pose proof Hev as (Hsrc & _).
  rewrite (handler_alarm _ _ _ _ _ Hlog Hcfg Hsrc).
  rewrite (handle_cloudwatch_alarm_run _ _ _ _ _ _ _ _ Hev). cbv zeta.
  split.
  - intros Hne. apply eq_str_false in Hne. rewrite Hne. reflexivity.
  - intros name -> ->. rewrite eq_str_refl. cbn [str_lower]. split.
    + intros ->. split; reflexivity.
    + intros ->. cbn [top_level app]. split; [reflexivity|].
      unfold alarm_message. rewrite !str_of_str. repeat split; find_mention.
Qed.

(** *** Failures of the corrective call *)

(** C5: for an event that line 37 can log, when the start call (stopped
    path) or the reboot call (health-check path) raises [e], the inner
    handler sends one alert whose text ends with [str(e)] and raises [e]
    again; the entry point catches it, sends a
    second alert, and returns status 500.  The invocation makes exactly
    those two publish calls and returns instead of raising. *)
Theorem C5_failed_action_alerts_twice_and_returns_500 w id topic e :
  configured w id topic ->
  let generic :=
    Publish (Some topic) "NAT Recovery Error"
            ("Error in recovery function: " ++ str_exn e) in
  let error :=
    {| statusCode := 500; body := json_dumps ("Error: " ++ str_exn e) |} in
  (forall event state response,
      loggable event ->
      state_change_event event (VStr id) state ->
      state = VStr "stopped" \/ state = VStr "stopping" ->
      respond w [] (DescribeInstances [id]) = Ok response ->
      current_state_of response = Ok (VStr "stopped") ->
      respond w [DescribeInstances [id]] (StartInstances [id]) = Raise e ->
      let failed :=
        Publish (Some topic) "NAT Recovery Failed"
                ("Failed to restart NAT instance " ++ id ++ ": " ++ str_exn e) in
      handle_stopped_instance w id topic []
      = (Raise e, [DescribeInstances [id]; StartInstances [id]; failed]) /\
      handler w event []
      = (Ok error, [DescribeInstances [id]; StartInstances [id]; failed; generic])) /\
  (forall event name state_reason response instance_status system_status,
      loggable event ->
      alarm_event event (VStr name) (VStr "ALARM") state_reason ->
      contains "health" (lower name) || contains "status" (lower name) = true ->
      respond w [] (DescribeInstanceStatus [id]) = Ok response ->
      health_of response = Ok (instance_status, system_status) ->
      instance_status <> VStr "ok" \/ system_status <> VStr "ok" ->
      respond w [DescribeInstanceStatus [id]] (RebootInstances [id]) = Raise e ->
      let failed :=
        Publish (Some topic) "NAT Recovery Failed"
                ("Failed to handle health check failure for " ++ id ++ ": "
                   ++ str_exn e) in
      handle_health_check_failure w id (VStr name) state_reason topic []
      = (Raise e, [DescribeInstanceStatus [id]; RebootInstances [id]; failed]) /\
      handler w event []
      = (Ok error,
         [DescribeInstanceStatus [id]; RebootInstances [id]; failed; generic])).
Proof.
  intros Hcfg generic error. split.
  - intros event state response Hlog Hev Hstate Hprobe Hlive Hstart failed.
    assert (Hin : in_strs state ["stopped"; "stopping"] = true)
      by (destruct Hstate as [-> | ->]; reflexivity).
    assert (Hinner : handle_stopped_instance w id topic []
                     = (Raise e, [DescribeInstances [id]; StartInstances [id]; failed])).
    { rewrite handle_stopped_instance_run, Hprobe, Hlive, eq_str_refl.
      cbv zeta. cbn [app]. rewrite Hstart. reflexivity. }
    split; [exact Hinner|].
    pose proof Hev as (Hsrc & Hdt & _).
    rewrite (handler_state_change _ _ _ _ _ Hlog Hcfg Hsrc Hdt).
    rewrite (handle_instance_state_change_run _ _ _ _ _ _ _ Hev).
    rewrite eq_str_refl, Hin. cbn [negb]. rewrite Hinner. reflexivity.
  - intros event name state_reason response instance_status system_status
           Hlog Hev Hname Hprobe Hhealth Hbad Hreboot failed.
    assert (Hinner : handle_health_check_failure w id (VStr name) state_reason topic []
                     = (Raise e, [DescribeInstanceStatus [id];
                                  RebootInstances [id]; failed])).
    { rewrite handle_health_check_failure_run, Hprobe.
      destruct (health_of_ok_truthy _ _ Hhealth) as (statuses & -> & ->).
      rewrite Hhealth, (unhealthy_test _ _ Hbad).
      cbv zeta. cbn [app negb]. rewrite Hreboot. reflexivity. }
    split; [exact Hinner|].
    pose proof Hev as (Hsrc & _).
    rewrite (handler_alarm _ _ _ _ _ Hlog Hcfg Hsrc).
    rewrite (handle_cloudwatch_alarm_run _ _ _ _ _ _ _ _ Hev).
    rewrite eq_str_refl. cbn [str_lower]. cbv zeta. rewrite Hname, Hinner. reflexivity.
Qed.

(** *** Notification delivery *)

Section Delivery.

Variables w1 w2 : World.
Hypothesis Hsame : differ_only_in_delivery w1 w2.

Lemma send_alert_agree topic subject message tr :
  send_alert w1 topic subject message tr = send_alert w2 topic subject message tr.
Proof. now rewrite !send_alert_run. Qed.

Lemma handle_stopped_instance_agree id topic tr :
  handle_stopped_instance w1 id topic tr = handle_stopped_instance w2 id topic tr.
Proof.
  destruct Hsame as (_ & Hclock & Hec2).
  rewrite !handle_stopped_instance_run. cbv zeta. rewrite Hclock.
  rewrite (Hec2 tr (DescribeInstances [id]) eq_refl).
  now rewrite (Hec2 (tr ++ [DescribeInstances [id]])%list (StartInstances [id]) eq_refl).
Qed.

Lemma handle_health_check_failure_agree id alarm_name reason topic tr :
  handle_health_check_failure w1 id alarm_name reason topic tr
  = handle_health_check_failure w2 id alarm_name reason topic tr.
Proof.
  destruct Hsame as (_ & Hclock & Hec2).
  rewrite !handle_health_check_failure_run. cbv zeta. rewrite Hclock.
  rewrite (Hec2 tr (DescribeInstanceStatus [id]) eq_refl).
  now rewrite (Hec2 (tr ++ [DescribeInstanceStatus [id]])%list
                    (RebootInstances [id]) eq_refl).
Qed.

Ltac read_field :=
  rewrite !bind_lift;
  match goal with
  | |- context [match ?o with Ok _ => _ | Raise _ => _ end] =>
      destruct o; [|reflexivity]
  end.

Lemma handle_instance_state_change_agree event id topic tr :
  handle_instance_state_change w1 event id topic tr
  = handle_instance_state_change w2 event id topic tr.
Proof.
  unfold NatRecoveryLambda.handle_instance_state_change. do 3 read_field.
  destruct (negb _); [reflexivity|].
  destruct (in_strs _ _); [apply handle_stopped_instance_agree|].
  destruct (in_strs _ _); [|reflexivity].
  unfold NatRecoveryLambda.handle_terminated_instance.
  rewrite !bind_utcnow, !bind_send_alert. destruct Hsame as (_ & Hclock & _).
  now rewrite Hclock.
Qed.

Lemma handle_cloudwatch_alarm_agree event id topic tr :
  handle_cloudwatch_alarm w1 event id topic tr
  = handle_cloudwatch_alarm w2 event id topic tr.
Proof.
  unfold NatRecoveryLambda.handle_cloudwatch_alarm. do 5 read_field. cbv zeta.
  destruct (eq_str _ "ALARM"); [|reflexivity].
  rewrite !(bind_run (is_health_alarm _)).
  destruct (is_health_alarm _ tr) as [[[|]|e] tr']; [| |reflexivity].
  - apply handle_health_check_failure_agree.
  - rewrite !bind_utcnow, !bind_send_alert.
    destruct Hsame as (_ & Hclock & _). now rewrite Hclock.
Qed.

Lemma handler_agree event tr : handler w1 event tr = handler w2 event tr.
Proof.
  unfold NatRecoveryLambda.handler, handler_except.
  destruct (dump_event recursion_limit event); [|reflexivity].
  destruct Hsame as (Henv & _ & _). rewrite !Henv.
  unfold try_except.
  destruct (negb _).
  - unfold raise. now rewrite !bind_send_alert.
  - do 3 (rewrite !bind_lift;
          match goal with
          | |- context [match ?o with Ok _ => _ | Raise _ => _ end] =>
              destruct o; [|now rewrite !bind_send_alert]
          end).
    destruct (environ w2 "INSTANCE_ID") as [id|];
      [destruct (environ w2 "SNS_TOPIC_ARN") as [topic|]|];
      try (unfold raise; now rewrite !bind_send_alert).
    destruct (eq_str _ _ && eq_str _ _).
    + rewrite handle_instance_state_change_agree.
      destruct (handle_instance_state_change w2 _ _ _ _) as [[r|e] tr'];
        [reflexivity | now rewrite !bind_send_alert].
    + destruct (eq_str _ _); [|reflexivity].
      rewrite handle_cloudwatch_alarm_agree.
      destruct (handle_cloudwatch_alarm w2 _ _ _ _) as [[r|e] tr'];
        [reflexivity | now rewrite !bind_send_alert].
Qed.

End Delivery.

(** C8: [send_alert] returns normally whatever the publish call does, and
    two invocations on the same event in worlds that differ only in how
    publish calls are answered make the same calls and return the same
    result, status code and body alike. *)
Theorem C8_delivery_failures_are_isolated :
  (forall w topic subject message tr,
      fst (send_alert w topic subject message tr) = Ok tt) /\
  (forall w1 w2 event,
      differ_only_in_delivery w1 w2 ->
      handler w1 event [] = handler w2 event [] /\
      fst (handler w1 event []) = fst (handler w2 event [])).
Proof.
  split.
  - intros. now rewrite send_alert_run.
  - intros w1 w2 event Hsame.
    now rewrite (handler_agree w1 w2 Hsame event []).
Qed.

(** *** Missing alarm fields *)

Lemma alarm_detail_event event detail new_state :
  alarm_detail event detail new_state ->
  alarm_event event (field "alarmName" (VStr "Unknown") detail)
              (field "value" (VStr "Unknown") new_state)
              (field "reason" (VStr "No reason provided") new_state).
Proof.
  intros (Hsrc & Hd & Hn). split; [exact Hsrc|].
  exists (VDict detail), (VDict new_state). repeat split; try assumption.
  - unfold field. simpl. now destruct (assoc "alarmName" detail).
  - unfold field. simpl. now destruct (assoc "value" new_state).
  - unfold field. simpl. now destruct (assoc "reason" new_state).
Qed.

Lemma alarm_detail_no_new_state event detail new_state :
  alarm_detail event detail new_state ->
  assoc "newState" detail = None -> new_state = [].
Proof.
  intros (_ & _ & Hn) Hnone. simpl in Hn. rewrite Hnone in Hn. now inversion Hn.
Qed.

(** C9, amended: the alarm handler reads a missing alarmName as "Unknown",
    a missing state value as "Unknown" and a missing reason as "No reason
    provided".  (1) With newState or its value missing, or a value other
    than "ALARM", it returns 200 and makes no call.  (2) With alarmName
    missing it returns 200; the only call it can make is the informational
    alert, named "Unknown", of an "ALARM".  (3) With the reason missing on
    an "ALARM", a name without "health" and "status" gives the informational
    alert and 200, and a name with one of them hands over to the
    health-check path with the default reason, whose outcome is the
    handler's. *)
Theorem C9_alarm_defaults w id topic event detail new_state :
  alarm_detail event detail new_state ->
  let alarm_name := field "alarmName" (VStr "Unknown") detail in
  let state_value := field "value" (VStr "Unknown") new_state in
  let state_reason := field "reason" (VStr "No reason provided") new_state in
  (assoc "newState" detail = None \/ assoc "value" new_state = None \/
   state_value <> VStr "ALARM" ->
   handle_cloudwatch_alarm w event id topic []
   = (Ok {| statusCode := 200;
            body := json_dumps ("Processed alarm: " ++ str alarm_name) |}, [])) /\
  (assoc "alarmName" detail = None ->
   handle_cloudwatch_alarm w event id topic []
   = (Ok {| statusCode := 200; body := json_dumps "Processed alarm: Unknown" |},
      if eq_str state_value "ALARM" then
        [Publish (Some topic) "NAT Instance Alert: Unknown"
                 (alarm_message repr_str (VStr "Unknown") state_value state_reason id
                                (utcnow_isoformat w []))]
      else [])) /\
  (assoc "reason" new_state = None ->
   state_value = VStr "ALARM" ->
   forall name, alarm_name = VStr name ->
     handle_cloudwatch_alarm w event id topic []
     = if contains "health" (lower name) || contains "status" (lower name) then
         handle_health_check_failure w id (VStr name) (VStr "No reason provided")
                                     topic []
       else
         (Ok {| statusCode := 200;
                body := json_dumps ("Processed alarm: " ++ name) |},
          [Publish (Some topic) ("NAT Instance Alert: " ++ name)
                   (alarm_message repr_str (VStr name) (VStr "ALARM")
                                  (VStr "No reason provided") id
                                  (utcnow_isoformat w []))])).
Proof.
  intros Hd alarm_name state_value state_reason.
  rewrite (handle_cloudwatch_alarm_run _ _ _ _ _ _ _ _ (alarm_detail_event _ _ _ Hd)).
  fold alarm_name state_value state_reason. cbv zeta.
  repeat split.
  - intros Hmissing.
    assert (Hne : eq_str state_value "ALARM" = false).
    { destruct Hmissing as [Hn | [Hv | Hne]].
      - subst state_value. rewrite (alarm_detail_no_new_state _ _ _ Hd Hn). reflexivity.
      - subst state_value. unfold field. rewrite Hv. reflexivity.
      - now apply eq_str_false. }
    rewrite Hne. reflexivity.
  - intros Hname. subst alarm_name. unfold field. rewrite Hname.
    destruct (eq_str state_value "ALARM"); reflexivity.
  - intros Hreason Hvalue name Hname.
    assert (Hdefault : state_reason = VStr "No reason provided")
      by (subst state_reason; unfold field; now rewrite Hreason).
    rewrite Hdefault, Hvalue, Hname, eq_str_refl. cbn [str_lower].
    destruct (contains "health" (lower name) || contains "status" (lower name));
      reflexivity.
Qed.

End Properties.

(** ** Whole invocations *)

Section Invocations.

Variable repr_str : string -> string.
Variable json_dumps : string -> string.
Variable recursion_limit : nat.

Local Abbreviation str := (str repr_str).
Local Abbreviation str_exn := (str_exn repr_str).
Local Abbreviation handler := (handler repr_str json_dumps recursion_limit).
Local Abbreviation loggable := (loggable recursion_limit).
Local Abbreviation handle_stopped_instance :=
  (handle_stopped_instance repr_str json_dumps).
Local Abbreviation handle_instance_state_change :=
  (handle_instance_state_change repr_str json_dumps).
Local Abbreviation handle_health_check_failure :=
  (handle_health_check_failure repr_str json_dumps).
Local Abbreviation handle_cloudwatch_alarm :=
  (handle_cloudwatch_alarm repr_str json_dumps).
Local Abbreviation top_level := (top_level repr_str json_dumps).
Local Abbreviation escalate := (escalate repr_str).

Create HintDb paths.
Local Hint Constructors path : paths.
Local Hint Unfold corrective probe_of : paths.

Lemma same_answers_here w1 tr1 w2 tr2 c :
  same_answers w1 tr1 w2 tr2 -> is_publish c = false ->
  respond w1 tr1 c = respond w2 tr2 c.
Proof.
  intros H Hc. specialize (H [] c Hc). now rewrite !app_nil_r in H.
Qed.

Lemma same_answers_refl w tr : same_answers w tr w tr.
Proof. intros h c _. reflexivity. Qed.

Lemma same_clock_refl w tr : same_clock w tr w tr.
Proof. intros h. reflexivity. Qed.

Lemma same_clock_here w1 tr1 w2 tr2 :
  same_clock w1 tr1 w2 tr2 -> utcnow_isoformat w1 tr1 = utcnow_isoformat w2 tr2.
Proof. intros H. specialize (H []). now rewrite !app_nil_r in H. Qed.

Lemma alike_refl w1 tr1 w2 tr2 calls : alike w1 tr1 w2 tr2 calls calls.
Proof. split; reflexivity. Qed.

Lemma alike_app w1 tr1 w2 tr2 calls1 calls2 more :
  alike w1 tr1 w2 tr2 calls1 calls2 ->
  alike w1 tr1 w2 tr2 (calls1 ++ more)%list (calls2 ++ more)%list.
Proof.
  intros (Hmap & Heq). split.
  - now rewrite !map_app, Hmap.
  - intros Hclock. now rewrite (Heq Hclock).
Qed.

Ltac solve_alike :=
  first [ apply alike_refl
        | split;
          [ reflexivity
          | let Hclock := fresh "Hclock" in
            intros Hclock;
            rewrite ?(same_clock_here _ _ _ _ Hclock), ?Hclock; reflexivity ] ].

Ltac close_path :=
  rewrite <- ?app_assoc; cbn [app];
  do 3 eexists; split; [|split; [|split]];
  [ | reflexivity | reflexivity | ];
  [ eauto 6 with paths | solve_alike ].

(** The stopped-instance handler ends in one of the shapes of [path], and
    ends the same way, up to the reading of the clock, wherever the EC2
    service answers alike. *)
Lemma handle_stopped_instance_path w1 tr1 w2 tr2 id topic :
  same_answers w1 tr1 w2 tr2 ->
  exists o calls1 calls2,
    path id topic o calls1 /\
    handle_stopped_instance w1 id topic tr1 = (o, (tr1 ++ calls1)%list) /\
    handle_stopped_instance w2 id topic tr2 = (o, (tr2 ++ calls2)%list) /\
    alike w1 tr1 w2 tr2 calls1 calls2.
Proof.
  intros Hsame. rewrite !handle_stopped_instance_run.
  rewrite (same_answers_here _ _ _ _ (DescribeInstances [id]) Hsame eq_refl).
  cbv zeta.
  rewrite (Hsame [DescribeInstances [id]] (StartInstances [id]) eq_refl).
  unfold escalate.
  destruct (respond w2 tr2 _) as [response|e]; [|close_path].
  destruct (current_state_of response) as [current_state|e]; [|close_path].
  destruct (eq_str current_state "stopped"); [|close_path].
  destruct (respond w2 _ (StartInstances [id])); [|close_path].
  close_path. apply path_acted; auto with paths. discriminate.
Qed.

(** The health-check handler ends in one of the shapes of [path], and ends
    the same way, up to the reading of the clock, wherever the EC2 service
    answers alike. *)
Lemma handle_health_check_failure_path w1 tr1 w2 tr2 id alarm_name reason topic :
  same_answers w1 tr1 w2 tr2 ->
  exists o calls1 calls2,
    path id topic o calls1 /\
    handle_health_check_failure w1 id alarm_name reason topic tr1
    = (o, (tr1 ++ calls1)%list) /\
    handle_health_check_failure w2 id alarm_name reason topic tr2
    = (o, (tr2 ++ calls2)%list) /\
    alike w1 tr1 w2 tr2 calls1 calls2.
Proof.
  intros Hsame. rewrite !handle_health_check_failure_run.
  rewrite (same_answers_here _ _ _ _ (DescribeInstanceStatus [id]) Hsame eq_refl).
  cbv zeta.
  rewrite (Hsame [DescribeInstanceStatus [id]] (RebootInstances [id]) eq_refl).
  unfold escalate.
  destruct (respond w2 tr2 _) as [response|e]; [|close_path].
  destruct (getitem response "InstanceStatuses") as [statuses|e]; [|close_path].
  destruct (negb (truthy statuses)); [close_path|].
  destruct (health_of response) as [[instance_status system_status]|e]; [|close_path].
  destruct (negb _ || negb _); [|close_path].
  destruct (respond w2 _ (RebootInstances [id])); [|close_path].
  close_path. apply path_acted; auto with paths. discriminate.
Qed.

Ltac end_quietly :=
  do 2 eexists; exists []; rewrite !app_nil_r;
  split; [|split; [reflexivity | split; [reflexivity | apply alike_refl]]].

Ltac read_or_fail :=
  rewrite !bind_lift;
  match goal with
  | |- context [match ?o with Ok _ => _ | Raise _ => _ end] =>
      destruct o; [|end_quietly; apply path_unreadable]
  end.

Lemma handle_instance_state_change_path w1 tr1 w2 tr2 event id topic :
  same_answers w1 tr1 w2 tr2 ->
  exists o calls1 calls2,
    path id topic o calls1 /\
    handle_instance_state_change w1 event id topic tr1 = (o, (tr1 ++ calls1)%list) /\
    handle_instance_state_change w2 event id topic tr2 = (o, (tr2 ++ calls2)%list) /\
    alike w1 tr1 w2 tr2 calls1 calls2.
Proof.
  intros Hsame. unfold NatRecoveryLambda.handle_instance_state_change.
  do 3 read_or_fail.
  destruct (negb _); [end_quietly; now apply path_quiet|].
  destruct (in_strs _ _); [now apply handle_stopped_instance_path|].
  destruct (in_strs _ _); [|end_quietly; now apply path_quiet].
  unfold NatRecoveryLambda.handle_terminated_instance.
  rewrite !bind_utcnow, !bind_send_alert.
  do 3 eexists. split; [|split; [reflexivity | split; [reflexivity | solve_alike]]].
  apply path_notice; [reflexivity | discriminate].
Qed.

Lemma alert_subject_not_error name : "NAT Instance Alert: " ++ name <> "NAT Recovery Error".
Proof. discriminate. Qed.

Lemma is_health_alarm_run alarm_name tr :
  is_health_alarm alarm_name tr
  = match str_lower alarm_name with
    | Ok lowered =>
        (Ok (contains "health" lowered || contains "status" lowered), tr)
    | Raise e => (Raise e, tr)
    end.
Proof.
  unfold is_health_alarm. rewrite bind_lift.
  destruct (str_lower alarm_name) as [lowered|e]; [|reflexivity].
  destruct (contains "health" lowered); [reflexivity|].
  now rewrite bind_lift.
Qed.

Lemma handle_cloudwatch_alarm_path w1 tr1 w2 tr2 event id topic :
  same_answers w1 tr1 w2 tr2 ->
  exists o calls1 calls2,
    path id topic o calls1 /\
    handle_cloudwatch_alarm w1 event id topic tr1 = (o, (tr1 ++ calls1)%list) /\
    handle_cloudwatch_alarm w2 event id topic tr2 = (o, (tr2 ++ calls2)%list) /\
    alike w1 tr1 w2 tr2 calls1 calls2.
Proof.
  intros Hsame. unfold NatRecoveryLambda.handle_cloudwatch_alarm.
  do 5 read_or_fail. cbv zeta.
  destruct (eq_str _ "ALARM"); [|end_quietly; now apply path_quiet].
  rewrite !(bind_run (is_health_alarm _)), !is_health_alarm_run.
  destruct (str_lower _) as [lowered|e]; [|end_quietly; apply path_unreadable].
  destruct (contains "health" lowered || contains "status" lowered).
  - now apply handle_health_check_failure_path.
  - rewrite !bind_utcnow, !bind_send_alert.
    do 3 eexists. split; [|split; [reflexivity | split; [reflexivity | solve_alike]]].
    apply path_notice; [reflexivity | apply alert_subject_not_error].
Qed.

(** Every invocation on an event that line 37 can log ends in one of the
    shapes of [invocation], and two invocations on the same event end the
    same way, up to the reading of the clock, when the configurations and
    the answers of the EC2 service agree. *)
Lemma handler_invocation w1 tr1 w2 tr2 event :
  loggable event ->
  same_config w1 w2 -> same_answers w1 tr1 w2 tr2 ->
  exists r calls1 calls2,
    invocation w1 r calls1 /\
    handler w1 event tr1 = (Ok r, (tr1 ++ calls1)%list) /\
    handler w2 event tr2 = (Ok r, (tr2 ++ calls2)%list) /\
    alike w1 tr1 w2 tr2 calls1 calls2.
Proof.
  intros Hlog (Hid & Htopic & Hrt) Hsame.
  assert (Hc : config_complete w2 = config_complete w1)
    by (unfold config_complete; now rewrite Hid, Htopic, Hrt).
  unfold NatRecoveryLambda.handler, handler_except, try_except.
  rewrite (dump_event_ok _ _ Hlog).
  change (all [truthy_env (environ w1 "INSTANCE_ID");
               truthy_env (environ w1 "ROUTE_TABLE_ID");
               truthy_env (environ w1 "SNS_TOPIC_ARN")]) with (config_complete w1).
  change (all [truthy_env (environ w2 "INSTANCE_ID");
               truthy_env (environ w2 "ROUTE_TABLE_ID");
               truthy_env (environ w2 "SNS_TOPIC_ARN")]) with (config_complete w2).
  rewrite Hc. destruct (config_complete w1) eqn:Hcomplete; cbn [negb].
  2:{ unfold raise. rewrite !bind_send_alert, <- Htopic.
      do 3 eexists. split; [|split; [reflexivity | split; [reflexivity|]]].
      - now apply invocation_misconfigured.
      - apply alike_refl. }
  destruct (config_complete_configured _ Hcomplete) as (id & topic & Hcfg).
  pose proof Hcfg as (Hid1 & Htopic1 & _).
  rewrite <- Hid, <- Htopic, Hid1, Htopic1.
  assert (Hend : forall o calls1 calls2,
             path id topic o calls1 ->
             alike w1 tr1 w2 tr2 calls1 calls2 ->
             exists r calls1' calls2',
               invocation w1 r calls1' /\
               match o with
               | Ok a => (Ok a, (tr1 ++ calls1)%list)
               | Raise e =>
                   (send_alert w1 (Some topic) "NAT Recovery Error"
                               ("Error in recovery function: " ++ str_exn e);;
                    ret {| statusCode := 500;
                           body := json_dumps ("Error: " ++ str_exn e) |})%py
                     (tr1 ++ calls1)%list
               end = (Ok r, (tr1 ++ calls1')%list) /\
               match o with
               | Ok a => (Ok a, (tr2 ++ calls2)%list)
               | Raise e =>
                   (send_alert w2 (Some topic) "NAT Recovery Error"
                               ("Error in recovery function: " ++ str_exn e);;
                    ret {| statusCode := 500;
                           body := json_dumps ("Error: " ++ str_exn e) |})%py
                     (tr2 ++ calls2)%list
               end = (Ok r, (tr2 ++ calls2')%list) /\
               alike w1 tr1 w2 tr2 calls1' calls2').
  { intros o calls1 calls2 Hpath Halike. destruct o as [r|e].
    - exists r, calls1, calls2. repeat split; try apply Halike.
      now apply (invocation_returned w1 id topic).
    - rewrite !bind_send_alert. unfold ret. rewrite <- !app_assoc.
      do 3 eexists. split; [|split; [reflexivity | split; [reflexivity|]]].
      + now apply (invocation_failed w1 id topic e).
      + now apply alike_app. }
  assert (Hraise : forall e : exn,
             exists r calls1 calls2,
               invocation w1 r calls1 /\
               (send_alert w1 (Some topic) "NAT Recovery Error"
                           ("Error in recovery function: " ++ str_exn e);;
                ret {| statusCode := 500;
                       body := json_dumps ("Error: " ++ str_exn e) |})%py tr1
               = (Ok r, (tr1 ++ calls1)%list) /\
               (send_alert w2 (Some topic) "NAT Recovery Error"
                           ("Error in recovery function: " ++ str_exn e);;
                ret {| statusCode := 500;
                       body := json_dumps ("Error: " ++ str_exn e) |})%py tr2
               = (Ok r, (tr2 ++ calls2)%list) /\
               alike w1 tr1 w2 tr2 calls1 calls2).
  { intros e.
    destruct (Hend (Raise e) [] [] (path_unreadable id topic e) (alike_refl _ _ _ _ _))
      as (r & c1 & c2 & Hinv & H1 & H2 & Halike).
    rewrite !app_nil_r in H1, H2. eauto 10. }
  do 3 (rewrite !bind_lift;
        match goal with
        | |- context [match ?o with Ok _ => _ | Raise _ => _ end] =>
            destruct o; [|apply Hraise]
        end).
  destruct (eq_str _ _ && eq_str _ _).
  - destruct (handle_instance_state_change_path w1 tr1 w2 tr2 event id topic Hsame)
      as (o & calls1 & calls2 & Hpath & -> & -> & Halike).
    now apply Hend.
  - destruct (eq_str _ _).
    + destruct (handle_cloudwatch_alarm_path w1 tr1 w2 tr2 event id topic Hsame)
        as (o & calls1 & calls2 & Hpath & -> & -> & Halike).
      now apply Hend.
    + destruct (Hend (Ok {| statusCode := 200;
                            body := json_dumps "Event type not handled" |})
                     [] []
                     (path_quiet id topic
                                 {| statusCode := 200;
                                    body := json_dumps "Event type not handled" |}
                                 eq_refl)
                     (alike_refl _ _ _ _ _))
        as (r & c1 & c2 & Hinv & H1 & H2 & Halike).
      rewrite !app_nil_r in H1, H2. unfold ret. eauto 10.
Qed.

Lemma same_config_refl w : same_config w w.
Proof. repeat split. Qed.

Lemma loggable_dec event : {loggable event} + {~ loggable event}.
Proof. apply le_dec. Qed.

(** An invocation either ends in one of the shapes of [invocation], or was
    given an event that line 37 cannot log and raises before any call. *)
Lemma handler_shape w event :
  (loggable event /\
   exists r calls, invocation w r calls /\ handler w event [] = (Ok r, calls)) \/
  (~ loggable event /\
   handler w event [] = (Raise (UnboundLocalError "sns_topic_arn"), [])).
Proof.
  destruct (loggable_dec event) as [Hlog | Hlog].
  - left. split; [exact Hlog|].
    destruct (handler_invocation w [] w [] event Hlog (same_config_refl w)
                                 (same_answers_refl w []))
      as (r & calls & _ & Hinv & Hrun & _).
    eauto.
  - right. split; [exact Hlog | now apply handler_unloggable].
Qed.

Lemma ends_with_last {A} (l prior : list A) x d : l = (prior ++ [x])%list -> last l d = x.
Proof. intros ->. apply last_last. Qed.

Ltac shapes H :=
  let Hpath := fresh "Hpath" in
  destruct H as [r message Hc H500
                | id topic r calls Hcfg Hpath
                | id topic e r calls message Hcfg Hpath H500];
  [ | inversion Hpath; subst; clear Hpath | inversion Hpath; subst; clear Hpath ];
  repeat match goal with
         | H : corrective _ _ _ |- _ => destruct H as [[-> ->] | [-> ->]]
         | H : probe_of _ _ |- _ => destruct H as [-> | ->]
         end.

(** X1: [handler] returns a result exactly when line 37 can log the event.
    Then, whatever the configuration, the answers of the services and the
    calls made before, the status code is 200, 400, 404 or 500.  On an
    event nested too deeply for [json.dumps], the [except] clause finds
    [sns_topic_arn] unbound and [handler] raises UnboundLocalError without
    any call. *)
Theorem X1_handler_returns_unless_line_37_fails w event tr :
  (loggable event ->
   exists r tr',
     handler w event tr = (Ok r, tr') /\
     In (statusCode r) [200; 400; 404; 500]%Z) /\
  (~ loggable event ->
   handler w event tr = (Raise (UnboundLocalError "sns_topic_arn"), tr)).
Proof.
  split; [|apply handler_unloggable].
  intros Hlog.
  destruct (handler_invocation w tr w tr event Hlog (same_config_refl w)
                               (same_answers_refl w tr))
    as (r & calls & _ & Hinv & Hrun & _).
  exists r, (tr ++ calls)%list. split; [exact Hrun|].
  shapes Hinv; simpl;
    repeat match goal with H : statusCode _ = _ |- _ => rewrite H; clear H end;
    tauto.
Qed.

(** X9: one invocation makes at most one probe, at most one corrective
    call (start or reboot, never both) and at most two publish calls. *)
Theorem X9_call_budget w event :
  count is_probe (snd (handler w event [])) <= 1 /\
  count is_start (snd (handler w event []))
  + count is_reboot (snd (handler w event [])) <= 1 /\
  count is_publish (snd (handler w event [])) <= 2.
Proof.
  destruct (handler_shape w event) as [(_ & r & calls & Hinv & ->) | (_ & ->)];
    cbn [snd]; [|cbn; lia].
  shapes Hinv; cbn; lia.
Qed.

(** X10: every EC2 call of an invocation is on the one instance named by
    INSTANCE_ID, and every publish call goes to the topic SNS_TOPIC_ARN
    holds (None when it is unset). *)
Theorem X10_calls_aim_at_the_configuration w event :
  Forall (aimed_at w) (snd (handler w event [])).
Proof.
  destruct (handler_shape w event) as [(_ & r & calls & Hinv & ->) | (_ & ->)];
    cbn [snd]; [|constructor].
  shapes Hinv;
    try match goal with H : configured _ _ _ |- _ => destruct H as (Hid & Htopic & _) end;
    cbn [app]; repeat constructor; cbn [aimed_at]; eauto.
Qed.

(** X11: a start call is the second call of its invocation, right after
    the [describe_instances] probe of the same instance, and then there is
    no reboot call; a reboot call is the second call, right after the
    [describe_instance_status] probe of the same instance, and then there
    is no start call. *)
Theorem X11_corrective_call_follows_its_probe w event :
  (forall ids,
      In (StartInstances ids) (snd (handler w event [])) ->
      count is_reboot (snd (handler w event [])) = 0 /\
      exists rest,
        snd (handler w event []) = DescribeInstances ids :: StartInstances ids :: rest) /\
  (forall ids,
      In (RebootInstances ids) (snd (handler w event [])) ->
      count is_start (snd (handler w event [])) = 0 /\
      exists rest,
        snd (handler w event [])
        = DescribeInstanceStatus ids :: RebootInstances ids :: rest).
Proof.
  destruct (handler_shape w event) as [(_ & r & calls & Hinv & ->) | (_ & ->)];
    cbn [snd]; [|split; intros ids []].
  split; intros ids Hin;
    shapes Hinv; cbn [app In] in *;
    repeat match goal with
           | H : _ \/ _ |- _ => destruct H
           | H : False |- _ => destruct H
           | H : _ = _ :> call |- _ => inversion H; subst; clear H
           end;
    (split; [reflexivity | eexists; reflexivity]).
Qed.

(** X12: a status 400 is returned only when the invocation made the
    [describe_instances] probe of the configured instance and nothing
    else, and a status 404 only when it made the [describe_instance_status]
    probe and nothing else: neither comes with a corrective call or a
    notification. *)
Theorem X12_conflict_and_not_found_are_probe_only w event r calls :
  handler w event [] = (Ok r, calls) ->
  (statusCode r = 400%Z ->
   exists id, environ w "INSTANCE_ID" = Some id /\ calls = [DescribeInstances [id]]) /\
  (statusCode r = 404%Z ->
   exists id, environ w "INSTANCE_ID" = Some id /\ calls = [DescribeInstanceStatus [id]]).
Proof.
  intros Hrun.
  destruct (handler_shape w event) as [(_ & r' & calls' & Hinv & Hrun') | (_ & Hrun')];
    rewrite Hrun in Hrun'; [|discriminate Hrun'].
  inversion Hrun'; subst r' calls'; clear Hrun'.
  split; intros Hcode;
    shapes Hinv;
    try match goal with H : configured _ _ _ |- _ => destruct H as (Hid & _) end;
    try (rewrite Hcode in *; discriminate);
    eauto.
Qed.

(** X13: when [handler] returns, the status is 500 exactly when the last
    call of the invocation is the "NAT Recovery Error" alert of the
    [except] clause: every failure that ends in a result is reported
    there, and that alert is sent for nothing else.  (The failure of line
    37 ends in no result: see X1.) *)
Theorem X13_status_500_iff_error_alert_is_last w event r calls :
  handler w event [] = (Ok r, calls) ->
  statusCode r = 500%Z <->
  exists prior message,
    calls = (prior ++ [Publish (environ w "SNS_TOPIC_ARN") "NAT Recovery Error"
                               message])%list.
Proof.
  intros Hrun.
  destruct (handler_shape w event) as [(_ & r' & calls' & Hinv & Hrun') | (_ & Hrun')];
    rewrite Hrun in Hrun'; [|discriminate Hrun'].
  inversion Hrun'; subst r' calls'; clear Hrun'.
  split.
  - intros Hcode.
    shapes Hinv;
      try match goal with H : configured _ _ _ |- _ => destruct H as (_ & Htopic & _) end;
      try (rewrite Hcode in *; discriminate);
      try rewrite Htopic; eauto.
    exists [], message. reflexivity.
  - intros (prior & message' & Hlast).
    apply (ends_with_last _ _ _ (DescribeInstances [])) in Hlast.
    shapes Hinv; try assumption; cbn in Hlast; try discriminate Hlast;
      inversion Hlast; congruence.
Qed.

(** X14: ROUTE_TABLE_ID is only tested for being set and non-empty.  Two
    invocations whose worlds differ in nothing but the value of that
    variable, set in both or in neither, end the same way after the same
    calls. *)
Theorem X14_route_table_value_is_not_used w1 w2 event :
  (forall k, k <> "ROUTE_TABLE_ID" -> environ w1 k = environ w2 k) ->
  truthy_env (environ w1 "ROUTE_TABLE_ID") = truthy_env (environ w2 "ROUTE_TABLE_ID") ->
  (forall tr, utcnow_isoformat w1 tr = utcnow_isoformat w2 tr) ->
  (forall tr c, respond w1 tr c = respond w2 tr c) ->
  handler w1 event [] = handler w2 event [].
Proof.
  intros Henv Hrt Hclock Hservices.
  destruct (loggable_dec event) as [Hlog | Hlog];
    [|now rewrite !(handler_unloggable _ _ _ _ _ _ Hlog)].
  assert (Hcfg : same_config w1 w2)
    by (repeat split; [apply Henv; discriminate | apply Henv; discriminate | exact Hrt]).
  assert (Hsame : same_answers w1 [] w2 [])
    by (intros h c _; apply Hservices).
  destruct (handler_invocation w1 [] w2 [] event Hlog Hcfg Hsame)
    as (r & calls1 & calls2 & _ & -> & -> & _ & Heq).
  rewrite Heq; [reflexivity|]. intros h. apply Hclock.
Qed.

(** X15: the handler keeps nothing between invocations.  When the EC2
    service answers a call the same way whatever was called before,
    handling an event after any earlier calls ends as handling it first
    does, and adds the same calls up to the text of the messages, which
    carry the time of the invocation; where the clock reads the same, the
    calls added are the same to the letter. *)
Theorem X15_redelivery_repeats_the_invocation w event tr :
  history_free w ->
  fst (handler w event tr) = fst (handler w event []) /\
  map headline (snd (handler w event tr))
  = (map headline tr ++ map headline (snd (handler w event [])))%list /\
  ((forall h, utcnow_isoformat w (tr ++ h)%list = utcnow_isoformat w h) ->
   snd (handler w event tr) = (tr ++ snd (handler w event []))%list).
Proof.
  intros Hfree.
  destruct (loggable_dec event) as [Hlog | Hlog].
  2:{ rewrite !(handler_unloggable _ _ _ _ _ _ Hlog). cbn [fst snd map].
      rewrite !app_nil_r. repeat split. }
  assert (Hsame : same_answers w tr w [])
    by (intros h c Hc; now apply Hfree).
  destruct (handler_invocation w tr w [] event Hlog (same_config_refl w) Hsame)
    as (r & calls1 & calls2 & _ & -> & -> & Hmap & Heq).
  cbn [fst snd app]. split; [reflexivity|]. split.
  - now rewrite map_app, Hmap.
  - intros Hclock. now rewrite (Heq Hclock).
Qed.

(** *** Events outside the two recovery paths *)

Lemma dict_get_not_dict v k default :
  (forall kvs, v <> VDict kvs) ->
  dict_get v k default = Raise (AttributeError (type_name v) "get").
Proof. intros H. destruct v; try reflexivity. now destruct (H kvs). Qed.

Lemma handler_configured w id topic event tr :
  loggable event ->
  configured w id topic ->
  handler w event tr
  = top_level (Some topic)
      ((event_source <- lift (dict_get event "source" VNone);;
        detail_type <- lift (dict_get event "detail-type" VNone);;
        _ <- lift (dict_get event "detail" (VDict []));;
        if eq_str event_source "aws.ec2"
           && eq_str detail_type "EC2 Instance State-change Notification" then
          handle_instance_state_change w event id topic
        else if eq_str event_source "aws.cloudwatch" then
          handle_cloudwatch_alarm w event id topic
        else
          ret {| statusCode := 200; body := json_dumps "Event type not handled" |})%py
         tr).
Proof.
  intros Hlog (Hid & Htopic & Hall).
  unfold NatRecoveryLambda.handler, handler_except, top_level, try_except.
  rewrite (dump_event_ok _ _ Hlog).
  unfold config_complete in Hall. rewrite Hall, Hid, Htopic. cbn [negb].
  match goal with
  | |- context [match ?m tr with _ => _ end] => destruct (m tr) as [[r|e] tr']
  end; [reflexivity | now rewrite bind_send_alert].
Qed.

(** X2: under a complete configuration, an event (a dict) that line 37
    can log, whose source is not "aws.cloudwatch", and which is not an EC2
    state-change notification either (another source, or "aws.ec2" with
    another detail-type), is answered with status 200 and no external
    call. *)
Theorem X2_other_events_are_not_handled w id topic event source detail_type :
  loggable event ->
  configured w id topic ->
  dict_get event "source" VNone = Ok source ->
  dict_get event "detail-type" VNone = Ok detail_type ->
  source <> VStr "aws.cloudwatch" ->
  source <> VStr "aws.ec2" \/
  detail_type <> VStr "EC2 Instance State-change Notification" ->
  handler w event []
  = (Ok {| statusCode := 200; body := json_dumps "Event type not handled" |}, []).
Proof.
  intros Hlog Hcfg Hsrc Hdt Hcw Hec2.
  rewrite (handler_configured _ _ _ _ _ Hlog Hcfg).
  destruct (dict_get_ok_dict _ _ _ _ Hsrc) as [kvs ->].
  destruct (dict_get_total kvs "detail" (VDict [])) as [d Hd].
  rewrite bind_lift, Hsrc, bind_lift, Hdt, bind_lift, Hd.
  apply eq_str_false in Hcw. rewrite Hcw.
  assert (Hnot : eq_str source "aws.ec2"
                 && eq_str detail_type "EC2 Instance State-change Notification" = false).
  { destruct Hec2 as [H | H]; apply eq_str_false in H; rewrite H;
      [reflexivity | apply andb_false_r]. }
  rewrite Hnot. reflexivity.
Qed.

(** X3: under a complete configuration, and provided line 37 can log the
    event, an event that is not a dict, a state-change or alarm event whose
    detail is present but not a dict, and an alarm event whose newState is
    present but not a dict are all answered with status 500 after exactly
    one call, the "NAT Recovery Error" alert, which carries the
    AttributeError of the failed [.get]. *)
Theorem X3_malformed_event_is_rejected w id topic event :
  loggable event ->
  configured w id topic ->
  let rejected culprit :=
    let error := str_exn (AttributeError (type_name culprit) "get") in
    handler w event []
    = (Ok {| statusCode := 500; body := json_dumps ("Error: " ++ error) |},
       [Publish (Some topic) "NAT Recovery Error"
                ("Error in recovery function: " ++ error)]) in
  ((forall kvs, event <> VDict kvs) -> rejected event) /\
  (forall detail,
      dict_get event "source" VNone = Ok (VStr "aws.ec2") ->
      dict_get event "detail-type" VNone
        = Ok (VStr "EC2 Instance State-change Notification") ->
      dict_get event "detail" (VDict []) = Ok detail ->
      (forall kvs, detail <> VDict kvs) ->
      rejected detail) /\
  (forall detail,
      dict_get event "source" VNone = Ok (VStr "aws.cloudwatch") ->
      dict_get event "detail" (VDict []) = Ok detail ->
      (forall kvs, detail <> VDict kvs) ->
      rejected detail) /\
  (forall detail new_state,
      dict_get event "source" VNone = Ok (VStr "aws.cloudwatch") ->
      dict_get event "detail" (VDict []) = Ok (VDict detail) ->
      dict_get (VDict detail) "newState" (VDict []) = Ok new_state ->
      (forall kvs, new_state <> VDict kvs) ->
      rejected new_state).
Proof.
  intros Hlog Hcfg rejected. unfold rejected. repeat split.
  - intros Hnot. rewrite (handler_configured _ _ _ _ _ Hlog Hcfg).
    rewrite bind_lift, (dict_get_not_dict _ _ _ Hnot). reflexivity.
  - intros detail Hsrc Hdt Hd Hnot.
    rewrite (handler_state_change _ _ _ _ _ _ _ _ Hlog Hcfg Hsrc Hdt).
    unfold NatRecoveryLambda.handle_instance_state_change.
    rewrite bind_lift, Hd, bind_lift, (dict_get_not_dict _ _ _ Hnot). reflexivity.
  - intros detail Hsrc Hd Hnot.
    rewrite (handler_alarm _ _ _ _ _ _ _ _ Hlog Hcfg Hsrc).
    unfold NatRecoveryLambda.handle_cloudwatch_alarm.
    rewrite bind_lift, Hd, bind_lift, (dict_get_not_dict _ _ _ Hnot). reflexivity.
  - intros detail new_state Hsrc Hd Hn Hnot.
    rewrite (handler_alarm _ _ _ _ _ _ _ _ Hlog Hcfg Hsrc).
    unfold NatRecoveryLambda.handle_cloudwatch_alarm.
    destruct (dict_get_total detail "alarmName" (VStr "Unknown")) as [name Hname].
    rewrite bind_lift, Hd, bind_lift, Hname, bind_lift, Hn.
    rewrite bind_lift, (dict_get_not_dict _ _ _ Hnot). reflexivity.
Qed.

(** X4: a state-change event of the configured instance that line 37 can
    log and whose state is none of "stopped", "stopping", "terminated", "terminating" (a missing
    state, read as None, is one) is answered with status 200 and no
    external call. *)
Theorem X4_other_states_need_no_action w id topic event state :
  loggable event ->
  configured w id topic ->
  state_change_event event (VStr id) state ->
  in_strs state ["stopped"; "stopping"; "terminated"; "terminating"] = false ->
  handler w event [] = (Ok {| statusCode := 200; body := "No action needed" |}, []).
Proof.
  intros Hlog Hcfg Hev Hstate.
  pose proof Hev as (Hsrc & Hdt & _).
  rewrite (handler_state_change _ _ _ _ _ _ _ _ Hlog Hcfg Hsrc Hdt).
  rewrite (handle_instance_state_change_run _ _ _ _ _ _ _ _ _ Hev).
  rewrite eq_str_refl. unfold in_strs, existsb in *.
  rewrite !orb_false_r in *.
  apply orb_false_iff in Hstate as (H1 & Hstate).
  apply orb_false_iff in Hstate as (H2 & Hstate).
  apply orb_false_iff in Hstate as (H3 & H4).
  rewrite H1, H2, H3, H4. reflexivity.
Qed.

(** *** Failures before the corrective call *)

(** X5: on the stopped path of an event that line 37 can log, when the
    probe itself raises, or its answer
    lacks one of the keys and entries of [Reservations[0].Instances[0].
    State.Name], no start call is made: the handler sends the "NAT Recovery
    Failed" alert and raises the same exception again, and the invocation
    returns status 500 after the second alert. *)
Theorem X5_stopped_path_failure_before_start w id topic event state e :
  loggable event ->
  configured w id topic ->
  state_change_event event (VStr id) state ->
  state = VStr "stopped" \/ state = VStr "stopping" ->
  respond w [] (DescribeInstances [id]) = Raise e \/
  (exists response,
      respond w [] (DescribeInstances [id]) = Ok response /\
      current_state_of response = Raise e) ->
  let failed :=
    Publish (Some topic) "NAT Recovery Failed"
            ("Failed to restart NAT instance " ++ id ++ ": " ++ str_exn e) in
  handle_stopped_instance w id topic []
  = (Raise e, [DescribeInstances [id]; failed]) /\
  handler w event []
  = (Ok {| statusCode := 500; body := json_dumps ("Error: " ++ str_exn e) |},
     [DescribeInstances [id]; failed;
      Publish (Some topic) "NAT Recovery Error"
              ("Error in recovery function: " ++ str_exn e)]).
Proof.
  intros Hlog Hcfg Hev Hstate Hfail failed.
  assert (Hin : in_strs state ["stopped"; "stopping"] = true)
    by (destruct Hstate as [-> | ->]; reflexivity).
  assert (Hinner : handle_stopped_instance w id topic []
                   = (Raise e, [DescribeInstances [id]; failed])).
  { rewrite handle_stopped_instance_run.
    destruct Hfail as [-> | (response & -> & ->)]; reflexivity. }
  split; [exact Hinner|].
  pose proof Hev as (Hsrc & Hdt & _).
  rewrite (handler_state_change _ _ _ _ _ _ _ _ Hlog Hcfg Hsrc Hdt).
  rewrite (handle_instance_state_change_run _ _ _ _ _ _ _ _ _ Hev).
  rewrite eq_str_refl, Hin. cbn [negb]. rewrite Hinner. reflexivity.
Qed.

(** X6: on the health-check path, when the probe raises, when its answer
    has no [InstanceStatuses] key (a KeyError, not a 404), or when the
    first status entry lacks one of the two [Status] fields, no reboot call
    is made, even if the field that could be read is not "ok": the handler
    sends the "NAT Recovery Failed" alert and raises the same exception
    again. *)
Theorem X6_health_path_failure_before_reboot w id alarm_name reason topic e :
  respond w [] (DescribeInstanceStatus [id]) = Raise e \/
  (exists response,
      respond w [] (DescribeInstanceStatus [id]) = Ok response /\
      (getitem response "InstanceStatuses" = Raise e \/
       exists statuses,
         getitem response "InstanceStatuses" = Ok statuses /\
         truthy statuses = true /\
         health_of response = Raise e)) ->
  handle_health_check_failure w id alarm_name reason topic []
  = (Raise e,
     [DescribeInstanceStatus [id];
      Publish (Some topic) "NAT Recovery Failed"
              ("Failed to handle health check failure for " ++ id ++ ": "
                 ++ str_exn e)]).
Proof.
  intros Hfail. rewrite handle_health_check_failure_run.
  destruct Hfail as [-> | (response & -> & [-> | (statuses & -> & -> & ->)])];
    reflexivity.
Qed.

(** X7: once the status probe has answered, the health-check path returns
    404 exactly when [InstanceStatuses] is there and falsy: the empty list
    boto3 gives, but also None, an empty dict or string, zero or False. *)
Theorem X7_not_found_iff_statuses_falsy w id alarm_name reason topic response :
  respond w [] (DescribeInstanceStatus [id]) = Ok response ->
  status statusCode (handle_health_check_failure w id alarm_name reason topic [])
  = Some 404%Z
  <-> exists statuses,
      getitem response "InstanceStatuses" = Ok statuses /\ truthy statuses = false.
Proof.
  intros Hprobe. rewrite handle_health_check_failure_run, Hprobe. cbv zeta.
  destruct (getitem response "InstanceStatuses") as [statuses|e].
  - destruct (truthy statuses) eqn:Htruthy; cbn [negb].
    + split; [|intros (s' & Hs & Hf); inversion Hs; congruence].
      destruct (health_of response) as [[i s']|e]; [|discriminate].
      destruct (negb _ || negb _); [|discriminate].
      destruct (respond w _ (RebootInstances [id])); discriminate.
    + split; [eauto | reflexivity].
  - split; [discriminate | intros (s' & Hs & _); discriminate].
Qed.

(** X8: in an "ALARM" event that line 37 can log the alarm name must be a
    string.  Any other
    value (a null, a number, a list) makes [.lower()] raise before any
    call: the alarm handler raises AttributeError, and under a complete
    configuration the invocation returns status 500 after the one "NAT
    Recovery Error" alert. *)
Theorem X8_alarm_name_must_be_a_string w id topic event alarm_name state_reason :
  loggable event ->
  configured w id topic ->
  alarm_event event alarm_name (VStr "ALARM") state_reason ->
  (forall name, alarm_name <> VStr name) ->
  let error := AttributeError (type_name alarm_name) "lower" in
  handle_cloudwatch_alarm w event id topic [] = (Raise error, []) /\
  handler w event []
  = (Ok {| statusCode := 500; body := json_dumps ("Error: " ++ str_exn error) |},
     [Publish (Some topic) "NAT Recovery Error"
              ("Error in recovery function: " ++ str_exn error)]).
Proof.
  intros Hlog Hcfg Hev Hnot error.
  assert (Hinner : handle_cloudwatch_alarm w event id topic [] = (Raise error, [])).
  { rewrite (handle_cloudwatch_alarm_run _ _ _ _ _ _ _ _ _ _ Hev).
    rewrite eq_str_refl. cbv zeta.
    destruct alarm_name; try reflexivity. now destruct (Hnot s). }
  split; [exact Hinner|].
  pose proof Hev as (Hsrc & _).
  rewrite (handler_alarm _ _ _ _ _ _ _ _ Hlog Hcfg Hsrc), Hinner. reflexivity.
Qed.

(** *** The classification of alarm names *)

Lemma prefix_app needle after : prefix needle (needle ++ after) = true.
Proof.
  induction needle as [|c needle IH]; [now destruct after|]. simpl.
  destruct (ascii_dec c c); [exact IH | congruence].
Qed.

Lemma prefix_true needle hay :
  prefix needle hay = true -> exists after, hay = needle ++ after.
Proof.
  revert hay. induction needle as [|c needle IH]; intros hay H.
  - now exists hay.
  - destruct hay as [|c' hay]; [discriminate H|]. simpl in H.
    destruct (ascii_dec c c') as [<-|]; [|discriminate H].
    destruct (IH _ H) as [after ->]. now exists after.
Qed.

Lemma contains_unfold needle hay :
  contains needle hay
  = prefix needle hay
    || match hay with
       | EmptyString => false
       | String _ rest => contains needle rest
       end.
Proof. destruct hay; reflexivity. Qed.

(** [contains] decides the substring relation, as Python's [in] does. *)
Lemma contains_mentions needle hay :
  contains needle hay = true <-> mentions hay needle.
Proof.
  split.
  - induction hay as [|c hay IH]; rewrite contains_unfold; intros H;
      apply orb_true_iff in H as [H | H].
    + destruct (prefix_true _ _ H) as [after ->]. apply mentions_here.
    + discriminate H.
    + destruct (prefix_true _ _ H) as [after ->]. apply mentions_here.
    + destruct (IH H) as (before & after & ->).
      now exists (String c before), after.
  - intros (before & after & ->).
    induction before as [|c before IH]; rewrite contains_unfold.
    + simpl append at 1. now rewrite prefix_app.
    + simpl. simpl in IH. rewrite IH. apply orb_true_r.
Qed.

Lemma lower_app a b : lower (a ++ b) = lower a ++ lower b.
Proof. induction a as [|c a IH]; simpl; [reflexivity | now rewrite IH]. Qed.

(** X16: the test of line 185 is a case-insensitive substring test.  An
    "ALARM" whose name has, anywhere in it, a word that lower-cases to
    "health" or to "status" is handed to the health-check path; an "ALARM"
    whose lower-cased name has neither as a substring gets the
    informational alert and status 200. *)
Theorem X16_alarm_names_are_matched_case_insensitively
        w id topic event name state_reason :
  alarm_event event (VStr name) (VStr "ALARM") state_reason ->
  (forall before word after,
      name = before ++ word ++ after ->
      lower word = "health" \/ lower word = "status" ->
      handle_cloudwatch_alarm w event id topic []
      = handle_health_check_failure w id (VStr name) state_reason topic []) /\
  (~ mentions (lower name) "health" ->
   ~ mentions (lower name) "status" ->
   handle_cloudwatch_alarm w event id topic []
   = (Ok {| statusCode := 200; body := json_dumps ("Processed alarm: " ++ name) |},
      [Publish (Some topic) ("NAT Instance Alert: " ++ name)
               (alarm_message repr_str (VStr name) (VStr "ALARM") state_reason id
                              (utcnow_isoformat w []))])).
Proof.
  intros Hev.
  rewrite (handle_cloudwatch_alarm_run _ _ _ _ _ _ _ _ _ _ Hev).
  rewrite eq_str_refl. cbn [str_lower]. cbv zeta. split.
  - intros before word after -> Hword.
    assert (Hfound : contains "health" (lower (before ++ word ++ after))
                     || contains "status" (lower (before ++ word ++ after)) = true).
    { rewrite !lower_app. apply orb_true_iff.
      destruct Hword as [-> | ->]; [left | right];
        apply contains_mentions; do 2 eexists; reflexivity. }
    now rewrite Hfound.
  - intros Hhealth Hstatus.
    destruct (contains "health" (lower name)) eqn:H1;
      [now apply contains_mentions in H1|].
    destruct (contains "status" (lower name)) eqn:H2;
      [now apply contains_mentions in H2|].
    reflexivity.
Qed.

End Invocations.

(** ** The properties at work on the test double *)

Import Double.

Local Abbreviation invoke w event :=
  (handler repr_str json_dumps recursion_limit w event []).

Local Abbreviation stopped_event := (state_event instance_id "stopped").

Lemma double_configured describe start status reboot publish :
  configured (world describe start status reboot publish) instance_id topic.
Proof. repeat split. Defined.

Lemma double_loggable event :
  Nat.leb (depth event) recursion_limit = true -> loggable recursion_limit event.
Proof. apply Nat.leb_le. Defined.

Lemma double_state_event state :
  state_change_event (state_event instance_id state) (VStr instance_id) (VStr state).
Proof. split; [reflexivity|]. split; [reflexivity|]. eexists. repeat split. Defined.

(** The source's own test event, with the instance found stopped and the
    start acknowledged. *)
Lemma C1_witness :
  let w := world (Ok (instances_in "stopped")) (Ok VNone) (Ok VNone) (Ok VNone) (Ok ack) in
  status statusCode (invoke w stopped_event) = Some 200%Z /\
  count is_start (snd (invoke w stopped_event)) = 1 /\
  count is_publish (snd (invoke w stopped_event)) = 1.
Proof.
  intros w.
  destruct (C1_stopped_event_starts_only_a_stopped_instance
              repr_str json_dumps recursion_limit w instance_id topic stopped_event
              (VStr "stopped") (instances_in "stopped") (VStr "stopped")
              (double_loggable stopped_event eq_refl)
              (double_configured _ _ _ _ _) (double_state_event "stopped")
              (or_introl eq_refl) eq_refl eq_refl) as [Hstopped _].
  destruct (Hstopped eq_refl) as [_ Hack].
  rewrite (Hack VNone eq_refl). repeat split.
Defined.

(** A "status" alarm with the system check impaired and the reboot
    acknowledged. *)
Lemma C2_witness :
  let w := world (Ok VNone) (Ok VNone) (Ok (statuses "ok" "impaired")) (Ok VNone) (Ok ack) in
  let run := handle_health_check_failure repr_str json_dumps w instance_id
               (VStr "nat-status-check") (VStr "Threshold Crossed") topic [] in
  status statusCode run = Some 200%Z /\
  count is_reboot (snd run) = 1 /\ count is_publish (snd run) = 1.
Proof.
  intros w run.
  destruct (C2_health_check_path_decisions
              repr_str json_dumps w instance_id (VStr "nat-status-check")
              (VStr "Threshold Crossed") topic (statuses "ok" "impaired") eq_refl)
    as [_ Hchecks].
  destruct (Hchecks (VStr "ok") (VStr "impaired") eq_refl) as [_ Hbad].
  assert (Himpaired : VStr "ok" <> VStr "ok" \/ VStr "impaired" <> VStr "ok")
    by (right; discriminate).
  destruct (Hbad Himpaired) as [_ Hack].
  destruct (Hack VNone eq_refl) as [Hrun _].
  unfold run. rewrite Hrun. repeat split.
Defined.

(** An alarm in state "ALARM" whose name has neither "health" nor
    "status": one alert, nothing else. *)
Lemma C3_witness :
  let w := world (Ok VNone) (Ok VNone) (Ok VNone) (Ok VNone) (Ok ack) in
  let event := alarm [("alarmName", VStr "NAT-CPU-High");
                      ("newState", VDict [("value", VStr "ALARM");
                                          ("reason", VStr "Threshold Crossed")])] in
  status statusCode (invoke w event) = Some 200%Z /\
  count is_publish (snd (invoke w event)) = 1 /\
  count is_probe (snd (invoke w event)) = 0 /\
  count is_reboot (snd (invoke w event)) = 0.
Proof.
  intros w event.
  assert (Hev : alarm_event event (VStr "NAT-CPU-High") (VStr "ALARM")
                            (VStr "Threshold Crossed")).
  { split; [reflexivity|]. do 2 eexists. repeat split. }
  destruct (C3_alarm_event_classification
              repr_str json_dumps recursion_limit w instance_id topic event _ _ _
              (double_loggable event eq_refl)
              (double_configured _ _ _ _ _) Hev) as [_ Halarm].
  destruct (Halarm "NAT-CPU-High" eq_refl eq_refl) as [_ Hinfo].
  destruct (Hinfo eq_refl) as [Hrun _].
  rewrite Hrun. repeat split.
Defined.

(** C4 fails on the code.  With nothing configured and an event nested
    one level deeper than line 37 can log, [json.dumps] raises inside the
    [try] block, the [except] clause finds [sns_topic_arn] unbound, and
    [handler] raises UnboundLocalError: no status 500 and no alert. *)
Lemma C4_unloggable_event_escapes_the_handler :
  misconfigured bare_world /\
  depth (nested 1001) = 1001 /\
  invoke bare_world (nested 1001)
  = (Raise (UnboundLocalError "sns_topic_arn"), []).
Proof. split; [left; reflexivity|]. split; vm_compute; reflexivity. Qed.

(** The start call and the reboot call both refused by the service. *)
Lemma C5_witness :
  let w := world (Ok (instances_in "stopped")) (Raise (ServiceError "boom"))
                 (Ok (statuses "impaired" "ok")) (Raise (ServiceError "boom"))
                 (Ok ack) in
  let event := alarm [("alarmName", VStr "NAT-Health");
                      ("newState", VDict [("value", VStr "ALARM")])] in
  (status statusCode (invoke w stopped_event) = Some 500%Z /\
   count is_publish (snd (invoke w stopped_event)) = 2) /\
  (status statusCode (invoke w event) = Some 500%Z /\
   count is_publish (snd (invoke w event)) = 2).
Proof.
  intros w event.
  destruct (C5_failed_action_alerts_twice_and_returns_500
              repr_str json_dumps recursion_limit w instance_id topic
              (ServiceError "boom")
              (double_configured _ _ _ _ _)) as [Hstart Hreboot].
  split.
  - destruct (Hstart stopped_event (VStr "stopped") (instances_in "stopped")
                     (double_loggable stopped_event eq_refl)
                     (double_state_event "stopped") (or_introl eq_refl)
                     eq_refl eq_refl eq_refl) as [_ Hrun].
    rewrite Hrun. repeat split.
  - assert (Hev : alarm_event event (VStr "NAT-Health") (VStr "ALARM")
                              (VStr "No reason provided")).
    { split; [reflexivity|]. do 2 eexists. repeat split. }
    assert (Himpaired : VStr "impaired" <> VStr "ok" \/ VStr "ok" <> VStr "ok")
      by (left; discriminate).
    destruct (Hreboot event "NAT-Health" _ (statuses "impaired" "ok")
                      (VStr "impaired") (VStr "ok") (double_loggable event eq_refl)
                      Hev eq_refl eq_refl eq_refl
                      Himpaired eq_refl) as [_ Hrun].
    rewrite Hrun. repeat split.
Defined.

(** The configured instance reported as terminated. *)
Lemma C6_witness :
  let w := world (Ok VNone) (Ok VNone) (Ok VNone) (Ok VNone) (Ok ack) in
  let event := state_event instance_id "terminated" in
  status statusCode (invoke w event) = Some 200%Z /\
  count is_publish (snd (invoke w event)) = 1 /\
  count is_start (snd (invoke w event)) = 0 /\
  count is_reboot (snd (invoke w event)) = 0.
Proof.
  intros w event.
  rewrite (C6_terminated_event_alerts_only
             repr_str json_dumps recursion_limit w instance_id topic event
             (VStr "terminated") (double_loggable event eq_refl)
             (double_configured _ _ _ _ _) (double_state_event "terminated")
             (or_introl eq_refl)).
  repeat split.
Defined.

(** Another instance reported as stopped. *)
Lemma C7_witness :
  let w := world (Ok (instances_in "stopped")) (Ok VNone) (Ok VNone) (Ok VNone) (Ok ack) in
  invoke w (state_event "i-0000000000000000f" "stopped")
  = (Ok {| statusCode := 200; body := "Not our instance" |}, []).
Proof.
  intros w.
  assert (Hev : state_change_event (state_event "i-0000000000000000f" "stopped")
                                   (VStr "i-0000000000000000f") (VStr "stopped")).
  { split; [reflexivity|]. split; [reflexivity|]. eexists. repeat split. }
  assert (Hother : VStr "i-0000000000000000f" <> VStr instance_id) by discriminate.
  exact (C7_other_instance_is_ignored
           repr_str json_dumps recursion_limit w instance_id topic _ _ _
           (double_loggable (state_event "i-0000000000000000f" "stopped") eq_refl)
           (double_configured _ _ _ _ _) Hev Hother).
Defined.

(** The same restart with the topic delivering and with the topic down. *)
Lemma C8_witness :
  let up := world (Ok (instances_in "stopped")) (Ok VNone) (Ok VNone) (Ok VNone) (Ok ack) in
  let down := world (Ok (instances_in "stopped")) (Ok VNone) (Ok VNone) (Ok VNone)
                    (Raise (ServiceError "topic unreachable")) in
  fst (invoke up stopped_event) = fst (invoke down stopped_event).
Proof.
  intros up down.
  assert (Hsame : differ_only_in_delivery up down).
  { split; [reflexivity|]. split; [reflexivity|].
    intros tr c Hc. destruct c; try reflexivity. discriminate Hc. }
  destruct (C8_delivery_failures_are_isolated repr_str json_dumps recursion_limit)
    as [_ Hruns].
  exact (proj2 (Hruns up down stopped_event Hsame)).
Defined.

(** An alarm event with an empty detail. *)
Lemma C9_witness :
  let w := world (Ok VNone) (Ok VNone) (Ok VNone) (Ok VNone) (Ok ack) in
  handle_cloudwatch_alarm repr_str json_dumps w (alarm []) instance_id topic []
  = (Ok {| statusCode := 200; body := json_dumps "Processed alarm: Unknown" |}, []).
Proof.
  intros w.
  assert (Hd : alarm_detail (alarm []) [] []) by (repeat split).
  destruct (C9_alarm_defaults repr_str json_dumps w instance_id topic (alarm []) [] [] Hd)
    as [Hquiet _].
  exact (Hquiet (or_introl eq_refl)).
Defined.

(** C9 as stated fails: an "ALARM" named after a health check that omits
    only the reason takes the health-check path, and with no status entry
    for the instance the alarm handler, and the invocation, return 404. *)
Lemma C9_reason_omitted_can_return_404 :
  let w := world (Ok VNone) (Ok VNone) (Ok (VDict [("InstanceStatuses", VList [])]))
                 (Ok VNone) (Ok ack) in
  let new_state := [("value", VStr "ALARM")] in
  let event := alarm [("alarmName", VStr "nat-health-check");
                      ("newState", VDict new_state)] in
  assoc "reason" new_state = None /\
  handle_cloudwatch_alarm repr_str json_dumps w event instance_id topic []
  = (Ok {| statusCode := 404; body := "Instance status not found" |},
     [DescribeInstanceStatus [instance_id]]) /\
  status statusCode (invoke w event) = Some 404%Z /\
  status statusCode (invoke w event) <> Some 200%Z.
Proof. repeat split. discriminate. Qed.

(** The probe answers with an empty reservation list. *)
Lemma C10_witness :
  let w := world (Ok (VDict [("Reservations", VList [])])) (Ok VNone) (Ok VNone)
                 (Ok VNone) (Ok ack) in
  status statusCode (invoke w stopped_event) = Some 500%Z /\
  count is_start (snd (invoke w stopped_event)) = 0 /\
  count is_publish (snd (invoke w stopped_event)) = 2.
Proof.
  intros w.
  destruct (C10_unknown_instance_on_stopped_path_is_an_error
              repr_str json_dumps recursion_limit w instance_id topic stopped_event
              (VStr "stopped") (VDict [("Reservations", VList [])])
              (double_loggable stopped_event eq_refl)
              (double_configured _ _ _ _ _) (double_state_event "stopped")
              (or_introl eq_refl) eq_refl (or_introl eq_refl)) as [_ Hrun].
  rewrite Hrun. repeat split.
Defined.

(** *** Whole invocations on the test double *)

Local Abbreviation quiet_world :=
  (world (Ok VNone) (Ok VNone) (Ok VNone) (Ok VNone) (Ok ack)).

(** The source's own test event, and an event nested one level deeper
    than line 37 can log. *)
Lemma X1_witness :
  (exists r tr',
      invoke quiet_world stopped_event = (Ok r, tr') /\
      In (statusCode r) [200; 400; 404; 500]%Z) /\
  invoke quiet_world (nested 1001)
  = (Raise (UnboundLocalError "sns_topic_arn"), []).
Proof.
  split.
  - apply (X1_handler_returns_unless_line_37_fails
             repr_str json_dumps recursion_limit quiet_world stopped_event []).
    exact (double_loggable stopped_event eq_refl).
  - apply (X1_handler_returns_unless_line_37_fails
             repr_str json_dumps recursion_limit quiet_world (nested 1001) []).
    intros H. apply Nat.leb_le in H. vm_compute in H. discriminate H.
Defined.

(** No environment at all, and an event that is not even a dictionary. *)
Lemma X17_witness :
  status statusCode (invoke bare_world (VInt 3)) = Some 500%Z /\
  count is_publish (snd (invoke bare_world (VInt 3))) = 1 /\
  count is_probe (snd (invoke bare_world (VInt 3))) = 0 /\
  count is_start (snd (invoke bare_world (VInt 3))) = 0 /\
  count is_reboot (snd (invoke bare_world (VInt 3))) = 0.
Proof.
  rewrite (X17_missing_configuration_fails_fast
             repr_str json_dumps recursion_limit bare_world (VInt 3)
             (double_loggable (VInt 3) eq_refl) (or_introl eq_refl)).
  repeat split.
Defined.

(** An S3 event. *)
Lemma X2_witness :
  invoke quiet_world (envelope "aws.s3" "Object Created" (VDict []))
  = (Ok {| statusCode := 200; body := json_dumps "Event type not handled" |}, []).
Proof.
  assert (Hcw : VStr "aws.s3" <> VStr "aws.cloudwatch") by discriminate.
  assert (Hec2 : VStr "aws.s3" <> VStr "aws.ec2" \/
                 VStr "Object Created" <> VStr "EC2 Instance State-change Notification")
    by (left; discriminate).
  exact (X2_other_events_are_not_handled
           repr_str json_dumps recursion_limit quiet_world instance_id topic
           (envelope "aws.s3" "Object Created" (VDict []))
           (VStr "aws.s3") (VStr "Object Created")
           (double_loggable (envelope "aws.s3" "Object Created" (VDict [])) eq_refl)
           (double_configured _ _ _ _ _) eq_refl eq_refl Hcw Hec2).
Defined.

(** An event that is a number. *)
Lemma X3_witness :
  status statusCode (invoke quiet_world (VInt 3)) = Some 500%Z /\
  snd (invoke quiet_world (VInt 3))
  = [Publish (Some topic) "NAT Recovery Error"
             "Error in recovery function: 'int' object has no attribute 'get'"].
Proof.
  destruct (X3_malformed_event_is_rejected
              repr_str json_dumps recursion_limit quiet_world instance_id topic
              (VInt 3) (double_loggable (VInt 3) eq_refl)
              (double_configured _ _ _ _ _)) as [Hevent _].
  assert (Hnot : forall kvs, VInt 3 <> VDict kvs) by discriminate.
  rewrite (Hevent Hnot). split; reflexivity.
Defined.

(** The configured instance reported as running. *)
Lemma X4_witness :
  invoke quiet_world (state_event instance_id "running")
  = (Ok {| statusCode := 200; body := "No action needed" |}, []).
Proof.
  exact (X4_other_states_need_no_action
           repr_str json_dumps recursion_limit quiet_world instance_id topic _ _
           (double_loggable (state_event instance_id "running") eq_refl)
           (double_configured _ _ _ _ _) (double_state_event "running") eq_refl).
Defined.

(** The probe of a stopped instance refused by the service. *)
Lemma X5_witness :
  let w := world (Raise (ServiceError "RequestLimitExceeded")) (Ok VNone) (Ok VNone)
                 (Ok VNone) (Ok ack) in
  status statusCode (invoke w stopped_event) = Some 500%Z /\
  count is_start (snd (invoke w stopped_event)) = 0 /\
  count is_publish (snd (invoke w stopped_event)) = 2.
Proof.
  intros w.
  destruct (X5_stopped_path_failure_before_start
              repr_str json_dumps recursion_limit w instance_id topic stopped_event
              (VStr "stopped") (ServiceError "RequestLimitExceeded")
              (double_loggable stopped_event eq_refl)
              (double_configured _ _ _ _ _) (double_state_event "stopped")
              (or_introl eq_refl) (or_introl eq_refl)) as [_ Hrun].
  rewrite Hrun. repeat split.
Defined.

(** A status answer without the [InstanceStatuses] key. *)
Lemma X6_witness :
  let w := world (Ok VNone) (Ok VNone) (Ok (VDict [])) (Ok VNone) (Ok ack) in
  let run := handle_health_check_failure repr_str json_dumps w instance_id
               (VStr "nat-health") (VStr "Threshold Crossed") topic [] in
  fst run = Raise (KeyError (VStr "InstanceStatuses")) /\
  count is_reboot (snd run) = 0 /\ count is_publish (snd run) = 1.
Proof.
  intros w run. unfold run.
  rewrite (X6_health_path_failure_before_reboot
             repr_str json_dumps w instance_id (VStr "nat-health")
             (VStr "Threshold Crossed") topic (KeyError (VStr "InstanceStatuses"))
             (or_intror (ex_intro _ (VDict []) (conj eq_refl (or_introl eq_refl))))).
  repeat split.
Defined.

(** A status answer whose [InstanceStatuses] is null. *)
Lemma X7_witness :
  let w := world (Ok VNone) (Ok VNone) (Ok (VDict [("InstanceStatuses", VNone)]))
                 (Ok VNone) (Ok ack) in
  status statusCode
         (handle_health_check_failure repr_str json_dumps w instance_id
            (VStr "nat-health") (VStr "Threshold Crossed") topic [])
  = Some 404%Z.
Proof.
  intros w.
  apply (X7_not_found_iff_statuses_falsy
           repr_str json_dumps w instance_id (VStr "nat-health")
           (VStr "Threshold Crossed") topic
           (VDict [("InstanceStatuses", VNone)]) eq_refl).
  exists VNone. split; reflexivity.
Defined.

(** An "ALARM" whose name is null. *)
Lemma X8_witness :
  let event := alarm [("alarmName", VNone);
                      ("newState", VDict [("value", VStr "ALARM")])] in
  status statusCode (invoke quiet_world event) = Some 500%Z /\
  snd (invoke quiet_world event)
  = [Publish (Some topic) "NAT Recovery Error"
             "Error in recovery function: 'NoneType' object has no attribute 'lower'"].
Proof.
  intros event.
  assert (Hev : alarm_event event VNone (VStr "ALARM") (VStr "No reason provided")).
  { split; [reflexivity|]. do 2 eexists. repeat split. }
  assert (Hnot : forall name, VNone <> VStr name) by discriminate.
  destruct (X8_alarm_name_must_be_a_string
              repr_str json_dumps recursion_limit quiet_world instance_id topic
              event VNone _ (double_loggable event eq_refl)
              (double_configured _ _ _ _ _) Hev Hnot) as [_ Hrun].
  rewrite Hrun. split; reflexivity.
Defined.

(** The restart of the source's own test event. *)
Lemma X11_witness :
  let w := world (Ok (instances_in "stopped")) (Ok VNone) (Ok VNone) (Ok VNone) (Ok ack) in
  count is_reboot (snd (invoke w stopped_event)) = 0 /\
  exists rest,
    snd (invoke w stopped_event)
    = DescribeInstances [instance_id] :: StartInstances [instance_id] :: rest.
Proof.
  intros w.
  destruct (X11_corrective_call_follows_its_probe
              repr_str json_dumps recursion_limit w stopped_event)
    as [Hstart _].
  apply Hstart. right. left. reflexivity.
Defined.

(** A stopped event for an instance found running. *)
Lemma X12_witness :
  exists id,
    test_environ "INSTANCE_ID" = Some id /\
    snd (invoke (world (Ok (instances_in "running")) (Ok VNone) (Ok VNone)
                       (Ok VNone) (Ok ack)) stopped_event)
    = [DescribeInstances [id]].
Proof.
  exact (proj1 (X12_conflict_and_not_found_are_probe_only
                  repr_str json_dumps recursion_limit
                  (world (Ok (instances_in "running")) (Ok VNone) (Ok VNone)
                         (Ok VNone) (Ok ack))
                  stopped_event
                  {| statusCode := 400;
                     body := json_dumps "Instance in running state" |}
                  [DescribeInstances [instance_id]] eq_refl) eq_refl).
Defined.

(** No environment at all: the alert is the last, and only, call. *)
Lemma X13_witness :
  exists prior message,
    snd (invoke bare_world (VInt 3))
    = (prior ++ [Publish None "NAT Recovery Error" message])%list.
Proof.
  exact (proj1 (X13_status_500_iff_error_alert_is_last
                  repr_str json_dumps recursion_limit bare_world (VInt 3)
                  {| statusCode := 500;
                     body := json_dumps "Error: Missing required environment variables" |}
                  [Publish None "NAT Recovery Error"
                           "Error in recovery function: Missing required environment variables"]
                  eq_refl) eq_refl).
Defined.

(** The same restart under two route tables. *)
Lemma X14_witness :
  invoke (world (Ok (instances_in "stopped")) (Ok VNone) (Ok VNone) (Ok VNone) (Ok ack))
         stopped_event
  = invoke (rerouted_world (Ok (instances_in "stopped")) (Ok VNone) (Ok VNone)
                           (Ok VNone) (Ok ack))
           stopped_event.
Proof.
  apply X14_route_table_value_is_not_used; try reflexivity.
  intros k Hk. cbn [environ world rerouted_world].
  destruct (k =? "ROUTE_TABLE_ID") eqn:E; [|reflexivity].
  apply String.eqb_eq in E. contradiction.
Defined.

(** The source's own test event delivered twice, the clock moving on. *)
Lemma X15_witness :
  let w := world (Ok (instances_in "stopped")) (Ok VNone) (Ok VNone) (Ok VNone) (Ok ack) in
  let first := invoke w stopped_event in
  let second := handler repr_str json_dumps recursion_limit w stopped_event (snd first) in
  fst second = fst first /\
  map headline (snd second) = (map headline (snd first) ++ map headline (snd first))%list /\
  snd second <> (snd first ++ snd first)%list.
Proof.
  intros w first second.
  assert (Hfree : history_free w) by (intros h1 h2 c _; reflexivity).
  destruct (X15_redelivery_repeats_the_invocation
              repr_str json_dumps recursion_limit w stopped_event (snd first) Hfree)
    as (Hresult & Hcalls & _).
  split; [exact Hresult|]. split; [exact Hcalls|].
  vm_compute. discriminate.
Defined.

(** A name in mixed case. *)
Lemma X16_witness :
  let w := world (Ok VNone) (Ok VNone) (Ok (statuses "ok" "ok")) (Ok VNone) (Ok ack) in
  let event := alarm [("alarmName", VStr "NAT-HeAlTh-Check");
                      ("newState", VDict [("value", VStr "ALARM")])] in
  handle_cloudwatch_alarm repr_str json_dumps w event instance_id topic []
  = handle_health_check_failure repr_str json_dumps w instance_id
      (VStr "NAT-HeAlTh-Check") (VStr "No reason provided") topic [].
Proof.
  intros w event.
  assert (Hev : alarm_event event (VStr "NAT-HeAlTh-Check") (VStr "ALARM")
                            (VStr "No reason provided")).
  { split; [reflexivity|]. do 2 eexists. repeat split. }
  destruct (X16_alarm_names_are_matched_case_insensitively
              repr_str json_dumps w instance_id topic event _ _ Hev) as [Hmatch _].
  exact (Hmatch "NAT-" "HeAlTh" "-Check" eq_refl (or_introl eq_refl)).
Defined.
